(** * SignatureValidator (Win32 PAL): a shallow embedding

    Source: src/xPlatAppx/PAL/Signature/Win32/SignatureValidator.cpp

    Every function of the translation unit is transcribed below under its
    own name.  The Windows cryptography API the file calls (wincrypt.h) is
    not part of the repository: calls whose answer depends on ASN.1
    decoding, cryptography or the machine's trust store are fields of the
    record [WinCrypt]; calls that only walk data the caller already holds
    (store enumeration, lookup by issuer and serial number, name
    comparison, extension lookup) are written out after their documented
    contract.  Thrown [xPlat::Exception]s are the [Throw] results of a
    small error monad; the [IStream] argument of [Validate] is an
    interface record over an explicit stream state. *)

From Stdlib Require Import ZArith List String Bool Lia.
From Stdlib.Strings Require Import Byte.
Import ListNotations.

Local Open Scope Z_scope.

(** ** Machine integers *)

Definition BOOL := bool.
Definition DWORD := Z.
Definition ULONG := Z.
Definition HRESULT := Z.          (* signed 32 bit *)
Definition LARGE_INTEGER := Z.    (* QuadPart, signed 64 bit *)
Definition ULARGE_INTEGER := Z.   (* QuadPart, unsigned 64 bit *)

(** Truncation to [std::uint32_t] / [DWORD]. *)
Definition wrap32 (z : Z) : Z := z mod 2 ^ 32.

(** [uli.u.LowPart]: the low 32 bits of [QuadPart]. *)
Definition LowPart (uli : ULARGE_INTEGER) : DWORD := Z.land uli (2 ^ 32 - 1).

(** [FAILED(hr)] of winerror.h. *)
Definition FAILED (hr : HRESULT) : bool := hr <? 0.

(** A little-endian [DWORD] out of the bytes stored into it. *)
Fixpoint dword_of_bytes (bs : list byte) : DWORD :=
  match bs with
  | [] => 0
  | b :: bs' => Z.of_N (Byte.to_N b) + 256 * dword_of_bytes bs'
  end.

(** ** Exceptions *)

(** [xPlat::Error::AppxSignatureInvalid], and the exception
    [ThrowHrIfFailed] raises for a failed [HRESULT]. *)
Inductive Error : Type :=
| AppxSignatureInvalid
| HResultError (hr : HRESULT).

Inductive result (A : Type) : Type :=
| Return (a : A)
| Throw (e : Error).
Arguments Return {A} a.
Arguments Throw {A} e.

Definition rbind {A B} (r : result A) (k : A -> result B) : result B :=
  match r with
  | Return a => k a
  | Throw e => Throw e
  end.

Declare Scope result_scope.
Delimit Scope result_scope with result.
Notation "x <- r ;; k" := (rbind r (fun x => k))
  (at level 61, r at next level, right associativity) : result_scope.
Notation "' p <- r ;; k" := (rbind r (fun p => k))
  (at level 61, p pattern, r at next level, right associativity) : result_scope.

(** ** Constants of the Windows SDK headers used by the file *)

Definition CERT_QUERY_OBJECT_BLOB : DWORD := 2.
Definition CERT_QUERY_CONTENT_CERT : DWORD := 1.
Definition CERT_QUERY_CONTENT_PKCS7_SIGNED : DWORD := 8.
Definition CERT_QUERY_CONTENT_PKCS7_UNSIGNED : DWORD := 9.
Definition CERT_QUERY_CONTENT_FLAG_CERT : DWORD := Z.shiftl 1 CERT_QUERY_CONTENT_CERT.
Definition CERT_QUERY_CONTENT_FLAG_PKCS7_SIGNED : DWORD :=
  Z.shiftl 1 CERT_QUERY_CONTENT_PKCS7_SIGNED.
Definition CERT_QUERY_CONTENT_FLAG_PKCS7_UNSIGNED : DWORD :=
  Z.shiftl 1 CERT_QUERY_CONTENT_PKCS7_UNSIGNED.
Definition CERT_QUERY_FORMAT_FLAG_BINARY : DWORD := 2.
Definition CERT_QUERY_FORMAT_FLAG_ALL : DWORD := 14.
Definition CMSG_SIGNER_INFO_PARAM : DWORD := 6.
Definition X509_ASN_ENCODING : DWORD := 1.
Definition PKCS_7_ASN_ENCODING : DWORD := 65536.
Definition STRSAFE_MAX_CCH : DWORD := 2147483647.
Definition CRYPT_E_NOT_FOUND : DWORD := 2148081668.        (* 0x80092004 *)
Definition CERT_E_UNTRUSTEDROOT : DWORD := 2148204809.     (* 0x800B0109 *)
Definition ERROR_INVALID_PARAMETER : DWORD := 87.
Definition CERT_FIND_EXT_ONLY_ENHKEY_USAGE_FLAG : DWORD := 2.
Definition CERT_FIND_PROP_ONLY_ENHKEY_USAGE_FLAG : DWORD := 4.
Definition CERT_CHAIN_POLICY_AUTHENTICODE : DWORD := 2.
Definition CERT_CHAIN_POLICY_MICROSOFT_ROOT : DWORD := 7.
Definition MICROSOFT_ROOT_CERT_CHAIN_POLICY_CHECK_APPLICATION_ROOT_FLAG : DWORD := 131072.
Definition CERT_CHAIN_CACHE_ONLY_URL_RETRIEVAL : DWORD := 4.
Definition USAGE_MATCH_TYPE_AND : DWORD := 0.
Definition HCCE_LOCAL_MACHINE : Z := 1.
Definition CERT_STORE_SIGNATURE_FLAG : DWORD := 1.
Definition X509_BASIC_CONSTRAINTS2 : DWORD := 15.
Definition CRYPT_DECODE_ALLOC_FLAG : DWORD := 32768.
Definition szOID_BASIC_CONSTRAINTS2 : string := "2.5.29.19".

(** ** Data of wincrypt.h *)

Definition CRYPT_DATA_BLOB := list byte.

Definition blob_eqb (a b : CRYPT_DATA_BLOB) : bool :=
  if list_eq_dec Byte.byte_eq_dec a b then true else false.

Record CERT_EXTENSION : Type := mkExtension {
  pszObjId : string;
  fCritical : BOOL;
  Value : CRYPT_DATA_BLOB
}.

Record CERT_INFO : Type := mkCertInfo {
  SerialNumber : CRYPT_DATA_BLOB;
  Issuer : CRYPT_DATA_BLOB;
  Subject : CRYPT_DATA_BLOB;
  rgExtension : list CERT_EXTENSION     (* cExtension is its length *)
}.

Record CERT_CONTEXT : Type := mkCertContext {
  dwCertEncodingType : DWORD;
  pbCertEncoded : CRYPT_DATA_BLOB;
  pCertInfo : CERT_INFO
}.

(** A nullable [PCCERT_CONTEXT]. *)
Definition PCCERT_CONTEXT := option CERT_CONTEXT.

(** A certificate store, as the sequence [CertEnumCertificatesInStore]
    delivers. *)
Definition HCERTSTORE := list CERT_CONTEXT.

Definition HCRYPTMSG := Z.

(** The two fields of [CMSG_SIGNER_INFO] the file reads. *)
Record CMSG_SIGNER_INFO : Type := mkSignerInfo {
  si_Issuer : CRYPT_DATA_BLOB;
  si_SerialNumber : CRYPT_DATA_BLOB
}.

Record CERT_CHAIN_PARA : Type := mkChainPara {
  RequestedUsage_dwType : DWORD
}.

(** A built chain: the signer certificate first. *)
Definition CERT_CHAIN_CONTEXT := list CERT_CONTEXT.

Record CERT_CHAIN_POLICY_PARA : Type := mkPolicyPara {
  para_dwFlags : DWORD
}.

Record CERT_CHAIN_POLICY_STATUS : Type := mkPolicyStatus {
  dwError : DWORD
}.

Record CERT_BASIC_CONSTRAINTS2_INFO : Type := mkBasicConstraints {
  fCA : BOOL;
  fPathLenConstraint : BOOL;
  dwPathLenConstraint : DWORD
}.

(** [rgpszUsageIdentifier]; [cUsageIdentifier] is its length. *)
Definition CERT_ENHKEY_USAGE := list string.

(** What [CryptQueryObject] hands back through its out-parameters. *)
Record QUERY_OBJECT : Type := mkQuery {
  dwContentType : DWORD;
  hCertStore : HCERTSTORE;
  hMsg : HCRYPTMSG
}.

(** A call that either succeeds with its outputs or returns FALSE and
    leaves a code for [GetLastError]. *)
Inductive Win32 (A : Type) : Type :=
| Ok (a : A)
| Fail (lastError : DWORD).
Arguments Ok {A} a.
Arguments Fail {A} lastError.

(** ** The cryptography provider *)

Record WinCrypt : Type := mkWinCrypt {
  (* object type, blob, expected content flags, expected format flags *)
  CryptQueryObject : DWORD -> CRYPT_DATA_BLOB -> DWORD -> DWORD -> option QUERY_OBJECT;
  (* pvData = NULL: only the size comes back *)
  CryptMsgGetParam_size : HCRYPTMSG -> DWORD -> DWORD -> option DWORD;
  (* pvData = a buffer of the given size *)
  CryptMsgGetParam : HCRYPTMSG -> DWORD -> DWORD -> DWORD -> option CMSG_SIGNER_INFO;
  (* engine, certificate, additional store, parameters, flags *)
  CertGetCertificateChain :
    Z -> CERT_CONTEXT -> HCERTSTORE -> CERT_CHAIN_PARA -> DWORD -> option CERT_CHAIN_CONTEXT;
  (* the BOOL returned and the status written through pPolicyStatus *)
  CertVerifyCertificateChainPolicy :
    DWORD -> CERT_CHAIN_CONTEXT -> CERT_CHAIN_POLICY_PARA -> BOOL * CERT_CHAIN_POLICY_STATUS;
  (* pUsage = NULL: only pcbUsage comes back *)
  CertGetEnhancedKeyUsage_size : PCCERT_CONTEXT -> DWORD -> Win32 DWORD;
  (* pUsage = a buffer of the given size *)
  CertGetEnhancedKeyUsage : PCCERT_CONTEXT -> DWORD -> DWORD -> Win32 CERT_ENHKEY_USAGE;
  (* subject, issuer, *pdwFlags on entry; the BOOL and *pdwFlags on return *)
  CertVerifySubjectCertificateContext : CERT_CONTEXT -> CERT_CONTEXT -> DWORD -> BOOL * DWORD;
  (* encoding, structure type, encoded bytes, flags *)
  CryptDecodeObjectEx :
    DWORD -> DWORD -> CRYPT_DATA_BLOB -> DWORD -> option CERT_BASIC_CONSTRAINTS2_INFO
}.

(** ** API calls written out after their documented contract *)

(** [CertCompareCertificateName]: the two name blobs are identical. *)
Definition CertCompareCertificateName (dwEncoding : DWORD) (n1 n2 : CRYPT_DATA_BLOB) : BOOL :=
  blob_eqb n1 n2.

(** [CertFindExtension]: the first extension carrying the identifier. *)
Definition CertFindExtension (oid : string) (exts : list CERT_EXTENSION) : option CERT_EXTENSION :=
  find (fun e => String.eqb (pszObjId e) oid) exts.

(** [CertGetSubjectCertificateFromStore]: the certificate of the store
    identified by the issuer and the serial number of [certInfo]. *)
Definition same_identity (issuer serial : CRYPT_DATA_BLOB) (c : CERT_CONTEXT) : bool :=
  blob_eqb (Issuer (pCertInfo c)) issuer && blob_eqb (SerialNumber (pCertInfo c)) serial.

Definition CertGetSubjectCertificateFromStore
    (store : HCERTSTORE) (dwEncoding : DWORD) (issuer serial : CRYPT_DATA_BLOB) : PCCERT_CONTEXT :=
  find (same_identity issuer serial) store.

(** [CertEnumCertificatesInStore(store, NULL)]: the first certificate. *)
Definition CertEnumCertificatesInStore_first (store : HCERTSTORE) : PCCERT_CONTEXT :=
  hd_error store.

(** ** Constants of the repository's own headers

    The constants the file takes from AppxSignature.hpp and
    AppxPackaging.hpp are parameters of the development. *)
Record AppxHeaders : Type := mkHeaders {
  P7X_FILE_ID : DWORD;
  OID_WindowsStore : string;
  APPX_VALIDATION_OPTION_SKIPSIGNATURE : Z;
  APPX_VALIDATION_OPTION_ALLOWUNKNOWNORIGIN : Z
}.

(** Modelled from the spec: [sizeof(P7X_FILE_ID)], the size of the fixed
    header; the macro is defined in AppxSignature.hpp, the spec gives the
    header as 4 bytes. *)
Definition sizeof_P7X_FILE_ID : Z := 4.

(** [sizeof(fileID)], a [DWORD]. *)
Definition sizeof_fileID : Z := 4.

Section Signature.

Variable H : AppxHeaders.
Variable W : WinCrypt.

Local Open Scope result_scope.

(** *** GetCertChainContext (lines 61-151) *)
Definition GetCertChainContext (signatureBuffer : CRYPT_DATA_BLOB) : result CERT_CHAIN_CONTEXT :=
  (* Get the cert content *)
  match CryptQueryObject W CERT_QUERY_OBJECT_BLOB signatureBuffer
          CERT_QUERY_CONTENT_FLAG_PKCS7_SIGNED CERT_QUERY_FORMAT_FLAG_BINARY with
  | None => Throw AppxSignatureInvalid
  | Some q =>
    let certStore := hCertStore q in
    let signedMessage := hMsg q in
    (* Get the signer size and information from the signed data message *)
    match CryptMsgGetParam_size W signedMessage CMSG_SIGNER_INFO_PARAM 0 with
    | None => Throw AppxSignatureInvalid
    | Some signerInfoSize =>
      if (signerInfoSize =? 0) || (signerInfoSize >=? STRSAFE_MAX_CCH)
      then Throw AppxSignatureInvalid
      else
        match CryptMsgGetParam W signedMessage CMSG_SIGNER_INFO_PARAM 0 signerInfoSize with
        | None => Throw AppxSignatureInvalid
        | Some signerInfo =>
          (* Get the signing certificate from the certificate store based on
             the issuer and serial number of the signer info *)
          match CertGetSubjectCertificateFromStore certStore
                  (Z.lor X509_ASN_ENCODING PKCS_7_ASN_ENCODING)
                  (si_Issuer signerInfo) (si_SerialNumber signerInfo) with
          | None => Throw AppxSignatureInvalid
          | Some signingCertContext =>
            let certChainParameters := mkChainPara USAGE_MATCH_TYPE_AND in
            let certChainFlags := CERT_CHAIN_CACHE_ONLY_URL_RETRIEVAL in
            match CertGetCertificateChain W HCCE_LOCAL_MACHINE signingCertContext
                    certStore certChainParameters certChainFlags with
            | None => Throw AppxSignatureInvalid
            | Some certChainContext => Return certChainContext
            end
          end
        end
    end
  end.

(** One of the two query blocks of [GetEnhancedKeyUsage] (lines 164-182
    and 184-202): the size of the byte vector after the block and the
    [CERT_ENHKEY_USAGE] it holds.  The vector starts empty, is resized to
    the reported size (zero-filled) when the size call succeeds and is
    filled by the second call; a failure other than CRYPT_E_NOT_FOUND
    throws. *)
Definition queryUsage (pCertContext : PCCERT_CONTEXT) (dwFlags : DWORD)
  : result (DWORD * CERT_ENHKEY_USAGE) :=
  match CertGetEnhancedKeyUsage_size W pCertContext dwFlags with
  | Ok cbUsage =>
    match CertGetEnhancedKeyUsage W pCertContext dwFlags cbUsage with
    | Ok usage => Return (cbUsage, usage)
    | Fail lastError =>
      if negb (lastError =? CRYPT_E_NOT_FOUND) then Throw AppxSignatureInvalid
      else Return (cbUsage, [])
    end
  | Fail lastError =>
    if negb (lastError =? CRYPT_E_NOT_FOUND) then Throw AppxSignatureInvalid
    else Return (0, [])
  end.

(** *** GetEnhancedKeyUsage (lines 153-229): the returned [bool] and the
    vector [values] after the call. *)
Definition GetEnhancedKeyUsage (pCertContext : PCCERT_CONTEXT) (values : list string)
  : result (bool * list string) :=
  ' (extensionUsage_size, pExtensionUsageT) <-
      queryUsage pCertContext CERT_FIND_EXT_ONLY_ENHKEY_USAGE_FLAG ;;
  ' (propertyUsage_size, pPropertyUsageT) <-
      queryUsage pCertContext CERT_FIND_PROP_ONLY_ENHKEY_USAGE_FLAG ;;
  (* get OIDS from the extension or property *)
  if extensionUsage_size >? 0
  then Return (Z.of_nat (List.length pExtensionUsageT) >? 0, (values ++ pExtensionUsageT)%list)
  else if propertyUsage_size >? 0
  then Return (Z.of_nat (List.length pPropertyUsageT) >? 0, (values ++ pPropertyUsageT)%list)
  else Return (false, values).

(** *** IsMicrosoftTrustedChain (lines 231-246): the BOOL of the call;
    [policyStatus] is written by the call and not read afterwards. *)
Definition IsMicrosoftTrustedChain (certChainContext : CERT_CHAIN_CONTEXT) : BOOL :=
  let policyParameters :=
    mkPolicyPara MICROSOFT_ROOT_CERT_CHAIN_POLICY_CHECK_APPLICATION_ROOT_FLAG in
  let '(ret, policyStatus) :=
    CertVerifyCertificateChainPolicy W CERT_CHAIN_POLICY_MICROSOFT_ROOT
      certChainContext policyParameters in
  ret.

(** *** IsAuthenticodeTrustedChain (lines 248-263) *)
Definition IsAuthenticodeTrustedChain (certChainContext : CERT_CHAIN_CONTEXT) : BOOL :=
  let policyParameters := mkPolicyPara 0 in
  let '(ret, policyStatus) :=
    CertVerifyCertificateChainPolicy W CERT_CHAIN_POLICY_AUTHENTICODE
      certChainContext policyParameters in
  ret.

(** *** IsCACert (lines 265-292) *)
Definition IsCACert (pCertContext : CERT_CONTEXT) : BOOL :=
  match CertFindExtension szOID_BASIC_CONSTRAINTS2 (rgExtension (pCertInfo pCertContext)) with
  | Some certExtension =>
    match CryptDecodeObjectEx W X509_ASN_ENCODING X509_BASIC_CONSTRAINTS2
            (Value certExtension) CRYPT_DECODE_ALLOC_FLAG with
    | Some basicConstraintsT => if fCA basicConstraintsT then true else false
    | None => false
    end
  | None => false
  end.

(** *** IsCertificateSelfSigned (lines 294-320) *)
Definition IsCertificateSelfSigned (pContext : PCCERT_CONTEXT) (dwEncoding dwFlags : DWORD) : BOOL :=
  match pContext with
  | None => false
  | Some ctx =>
    if negb (dwFlags =? 0) then false
    else if negb (CertCompareCertificateName dwEncoding
                    (Issuer (pCertInfo ctx)) (Subject (pCertInfo ctx)))
    then false
    else
      let '(ret, dwFlag) :=
        CertVerifySubjectCertificateContext W ctx ctx CERT_STORE_SIGNATURE_FLAG in
      if negb ret || negb (Z.land dwFlag CERT_STORE_SIGNATURE_FLAG =? 0)
      then false
      else true
  end.

(** The [while] loop of [GetCertContext] (lines 365-377), over the
    certificates the enumeration has still to deliver: a self-signed or CA
    certificate is passed over ([continue]), the first other one ends the
    loop ([break]), and the exhausted enumeration leaves NULL. *)
Fixpoint enumEndEntity (remaining : list CERT_CONTEXT) : PCCERT_CONTEXT :=
  match remaining with
  | [] => None
  | pCertContext :: remaining' =>
    if IsCertificateSelfSigned (Some pCertContext) (dwCertEncodingType pCertContext) 0
       || IsCACert pCertContext
    then enumEndEntity remaining'
    else Some pCertContext
  end.

(** *** GetCertContext (lines 322-380) *)
Definition GetCertContext (signatureBuffer : CRYPT_DATA_BLOB) : result PCCERT_CONTEXT :=
  let dwExpectedContentType :=
    Z.lor (Z.lor CERT_QUERY_CONTENT_FLAG_CERT CERT_QUERY_CONTENT_FLAG_PKCS7_SIGNED)
          CERT_QUERY_CONTENT_FLAG_PKCS7_UNSIGNED in
  match CryptQueryObject W CERT_QUERY_OBJECT_BLOB signatureBuffer
          dwExpectedContentType CERT_QUERY_FORMAT_FLAG_ALL with
  | None => Throw AppxSignatureInvalid
  | Some q =>
    let certStoreHandle := hCertStore q in
    if dwContentType q =? CERT_QUERY_CONTENT_CERT
    then Return (CertEnumCertificatesInStore_first certStoreHandle)
    else Return (enumEndEntity certStoreHandle)
  end.

(** *** DoesSignatureCertContainStoreEKU (lines 382-402) *)
Definition DoesSignatureCertContainStoreEKU (rawSignatureBuffer : CRYPT_DATA_BLOB) : result BOOL :=
  certificateContext <- GetCertContext rawSignatureBuffer ;;
  ' (result, oids) <- GetEnhancedKeyUsage certificateContext [] ;;
  if (result : bool)
  then Return (existsb (fun oid => String.eqb oid (OID_WindowsStore H)) oids)
  else Return false.

(** *** IsStoreOrigin (lines 405-414) *)
Definition IsStoreOrigin (signatureBuffer : CRYPT_DATA_BLOB) : result BOOL :=
  hasStoreEKU <- DoesSignatureCertContainStoreEKU signatureBuffer ;;
  if (hasStoreEKU : bool)
  then certChainContext <- GetCertChainContext signatureBuffer ;;
       Return (IsMicrosoftTrustedChain certChainContext)
  else Return false.

(** *** IsAuthenticodeOrigin (lines 417-425) *)
Definition IsAuthenticodeOrigin (signatureBuffer : CRYPT_DATA_BLOB) : result BOOL :=
  certChainContext <- GetCertChainContext signatureBuffer ;;
  Return (IsAuthenticodeTrustedChain certChainContext).

(** The condition handed to [ThrowErrorIfNot] at lines 453-455, a
    short-circuit disjunction: a call to its right is made only when
    everything to its left was false. *)
Definition OriginCondition (option : Z) (buffer : CRYPT_DATA_BLOB) : result bool :=
  storeOrigin <- IsStoreOrigin buffer ;;
  if (storeOrigin : bool) then Return true
  else
    authenticodeOrigin <- IsAuthenticodeOrigin buffer ;;
    if (authenticodeOrigin : bool) then Return true
    else Return (negb (Z.land option (APPX_VALIDATION_OPTION_ALLOWUNKNOWNORIGIN H) =? 0)).

End Signature.

(** ** The stream argument

    [IStream] as [Validate] uses it: [Seek] with a non-null
    [newPosition], which receives the position the stream reports, and
    [Read], whose reply is the bytes stored into the destination
    ([actualRead] is their number).  Both return an [HRESULT].  The
    implementation behind the pointer is the caller's. *)
(* StreamBase::Reference *)
Inductive Reference : Type := START | CURRENT | END.

Record IStream (S : Type) : Type := mkStream {
  Seek : LARGE_INTEGER -> Reference -> S -> HRESULT * ULARGE_INTEGER * S;
  Read : ULONG -> S -> HRESULT * list byte * S
}.
Arguments Seek {S} _ _ _ _.
Arguments Read {S} _ _ _.

Declare Scope validate_scope.
Delimit Scope validate_scope with validate.

Section Validate.

Variable H : AppxHeaders.
Variable W : WinCrypt.
Variable S : Type.          (* the state behind the stream pointer *)
Variable Digests : Type.    (* std::map<DigestName, Digest> *)
Variable stream : IStream S.

(** The state a call of [Validate] can touch: the stream and the
    [digests] map passed by reference. *)
Definition VState : Type := S * Digests.

Definition M (A : Type) : Type := VState -> result A * VState.

Definition ret {A} (a : A) : M A := fun st => (Return a, st).

Definition throw {A} (e : Error) : M A := fun st => (Throw e, st).

Definition bind {A B} (m : M A) (k : A -> M B) : M B :=
  fun st =>
    match m st with
    | (Return a, st') => k a st'
    | (Throw e, st') => (Throw e, st')
    end.

Definition liftR {A} (r : result A) : M A := fun st => (r, st).

Notation "x <- m ;; k" := (bind m (fun x => k))
  (at level 61, m at next level, right associativity) : validate_scope.
Notation "' p <- m ;; k" := (bind m (fun p => k))
  (at level 61, p pattern, m at next level, right associativity) : validate_scope.
Notation "m ;; k" := (bind m (fun _ => k))
  (at level 61, right associativity) : validate_scope.

Local Open Scope validate_scope.

(** Modelled from the spec: the throwing macros of Exceptions.hpp.  A
    check fails with the named error when its condition holds
    ([ThrowErrorIf]) or does not hold ([ThrowErrorIfNot]);
    [ThrowHrIfFailed] raises the failed [HRESULT] of a stream call. *)
Definition ThrowHrIfFailed (hr : HRESULT) : M unit :=
  if FAILED hr then throw (HResultError hr) else ret tt.

Definition ThrowErrorIf (e : Error) (c : bool) : M unit :=
  if c then throw e else ret tt.

Definition ThrowErrorIfNot (e : Error) (c : bool) : M unit :=
  if c then ret tt else throw e.

Definition stream_Seek (move : LARGE_INTEGER) (origin : Reference)
  : M (HRESULT * ULARGE_INTEGER) :=
  fun '(s, d) => let '(hr, newPosition, s') := Seek stream move origin s in
                 (Return (hr, newPosition), (s', d)).

Definition stream_Read (cb : ULONG) : M (HRESULT * list byte) :=
  fun '(s, d) => let '(hr, stored, s') := Read stream cb s in
                 (Return (hr, stored), (s', d)).

(** Lines 435-449 of [Validate]: the container is measured, rewound and
    read.

    - Line 439 passes [&uli] to the second [Seek] as line 437 does to the
      first, so [uli] holds what the rewind reports when line 445
      computes [streamSize] from [uli.u.LowPart].
    - Line 442 spells the destination of the header read [fileId]; the
      translation unit declares no such name, and it is read here as the
      local [fileID] that line 443 tests.  The four bytes of [fileID]
      start as zero and take the bytes the stream stores. *)
Definition ReadP7x : M (list byte) :=
  let li : LARGE_INTEGER := 0 in
  ' (hr, uli) <- stream_Seek li END ;;
  ThrowHrIfFailed hr ;;
  ThrowErrorIf AppxSignatureInvalid
    ((uli <=? sizeof_P7X_FILE_ID) || (uli >? Z.shiftl 2 20)) ;;
  ' (hr, uli) <- stream_Seek li START ;;
  ThrowHrIfFailed hr ;;
  ' (hr, stored) <- stream_Read sizeof_fileID ;;
  ThrowHrIfFailed hr ;;
  let fileID := dword_of_bytes (firstn 4 stored) in
  ThrowErrorIf AppxSignatureInvalid (negb (fileID =? P7X_FILE_ID H)) ;;
  let streamSize := wrap32 (LowPart uli - sizeof_fileID) in
  ' (hr, buffer) <- stream_Read streamSize ;;
  ThrowHrIfFailed hr ;;
  let actualRead := Z.of_nat (List.length buffer) in
  ThrowErrorIf AppxSignatureInvalid (negb (actualRead =? streamSize)) ;;
  ret buffer.

(** *** SignatureValidator::Validate (lines 427-458) *)
Definition Validate (option : Z) : M bool :=
  (* If the caller wants to skip signature validation altogether, just
     bug out early. We will not read the digests *)
  if negb (Z.land option (APPX_VALIDATION_OPTION_SKIPSIGNATURE H) =? 0) then ret false
  else
    buffer <- ReadP7x ;;
    (* TODO: this code does not read the digests yet *)
    originKnown <- liftR (OriginCondition H W option buffer) ;;
    ThrowErrorIfNot AppxSignatureInvalid originKnown ;;
    ret true.

End Validate.

Arguments ReadP7x H {S Digests} stream _.
Arguments Validate H W {S Digests} stream option _.

(** ** Streams to run the code on *)

(** An in-memory stream that keeps the [IStream] contract: [Seek] moves
    the position relative to the origin and reports the new position from
    the beginning of the stream; [Read] stores the bytes available from
    the position, at most [cb] of them, and advances. *)
Record MemStream : Type := mkMem {
  ms_data : list byte;
  ms_pos : Z
}.

Definition S_OK : HRESULT := 0.
Definition E_FAIL : HRESULT := -2147467259.        (* 0x80004005 *)
Definition E_INVALIDARG : HRESULT := -2147024809.  (* 0x80070057 *)

Definition memSeek (move : LARGE_INTEGER) (origin : Reference) (st : MemStream)
  : HRESULT * ULARGE_INTEGER * MemStream :=
  let base := match origin with
              | START => 0
              | CURRENT => ms_pos st
              | END => Z.of_nat (List.length (ms_data st))
              end in
  let p := base + move in
  if p <? 0 then (E_INVALIDARG, ms_pos st, st)
  else (S_OK, p, mkMem (ms_data st) p).

Definition memRead (cb : ULONG) (st : MemStream) : HRESULT * list byte * MemStream :=
  let remaining := skipn (Z.to_nat (ms_pos st)) (ms_data st) in
  let n := Z.min cb (Z.of_nat (List.length remaining)) in
  let stored := firstn (Z.to_nat n) remaining in
  (S_OK, stored, mkMem (ms_data st) (ms_pos st + Z.of_nat (List.length stored))).

Definition memStream : IStream MemStream := mkStream MemStream memSeek memRead.

(** A stream double that answers from a script, one reply per call,
    whatever is asked. *)
Record Script : Type := mkScript {
  seek_replies : list (HRESULT * ULARGE_INTEGER);
  read_replies : list (HRESULT * list byte)
}.

Definition scriptSeek (move : LARGE_INTEGER) (origin : Reference) (st : Script)
  : HRESULT * ULARGE_INTEGER * Script :=
  match seek_replies st with
  | (hr, pos) :: rest => (hr, pos, mkScript rest (read_replies st))
  | [] => (E_FAIL, 0, st)
  end.

Definition scriptRead (cb : ULONG) (st : Script) : HRESULT * list byte * Script :=
  match read_replies st with
  | (hr, stored) :: rest => (hr, stored, mkScript (seek_replies st) rest)
  | [] => (E_FAIL, [], st)
  end.

Definition scriptStream : IStream Script := mkStream Script scriptSeek scriptRead.

(** ** A provider to run the code on

    A table-driven provider: one [Scenario] fixes what the provider
    answers about the blob under test. *)
Record Scenario : Type := mkScenario {
  sc_content : DWORD;                          (* content type of the blob *)
  sc_store : HCERTSTORE;                       (* certificates it carries *)
  sc_signer : option (DWORD * CMSG_SIGNER_INFO); (* size and signer info *)
  sc_chain : bool;                             (* can a chain be built *)
  sc_msroot : BOOL * DWORD;                    (* Microsoft-root policy: BOOL, dwError *)
  sc_authenticode : BOOL * DWORD;              (* Authenticode policy: BOOL, dwError *)
  sc_ext_eku : Win32 (DWORD * CERT_ENHKEY_USAGE);   (* extension EKU: size, list *)
  sc_prop_eku : Win32 (DWORD * CERT_ENHKEY_USAGE)   (* property EKU: size, list *)
}.

(** The provider parses every non-empty blob whose content type is among
    the expected ones. *)
Definition sc_query (sc : Scenario) (objType : DWORD) (blob : CRYPT_DATA_BLOB)
    (contentFlags formatFlags : DWORD) : option QUERY_OBJECT :=
  match blob with
  | [] => None
  | _ :: _ =>
    if Z.testbit contentFlags (sc_content sc)
    then Some (mkQuery (sc_content sc) (sc_store sc) 1)
    else None
  end.

Definition sc_eku (sc : Scenario) (dwFlags : DWORD) : Win32 (DWORD * CERT_ENHKEY_USAGE) :=
  if dwFlags =? CERT_FIND_EXT_ONLY_ENHKEY_USAGE_FLAG then sc_ext_eku sc else sc_prop_eku sc.

Definition sc_eku_size (sc : Scenario) (cert : PCCERT_CONTEXT) (dwFlags : DWORD) : Win32 DWORD :=
  match cert with
  | None => Fail ERROR_INVALID_PARAMETER
  | Some _ => match sc_eku sc dwFlags with
              | Ok (cb, _) => Ok cb
              | Fail e => Fail e
              end
  end.

Definition sc_eku_data (sc : Scenario) (cert : PCCERT_CONTEXT) (dwFlags cb : DWORD)
  : Win32 CERT_ENHKEY_USAGE :=
  match cert with
  | None => Fail ERROR_INVALID_PARAMETER
  | Some _ => match sc_eku sc dwFlags with
              | Ok (_, usage) => Ok usage
              | Fail e => Fail e
              end
  end.

(** A certificate's signature verifies under the provider when its
    encoding starts with the byte 01. *)
Definition sc_signature_ok (c : CERT_CONTEXT) : bool :=
  match pbCertEncoded c with
  | b :: _ => Byte.eqb b x01
  | [] => false
  end.

Definition sc_verify (subject issuer : CERT_CONTEXT) (dwFlags : DWORD) : BOOL * DWORD :=
  if sc_signature_ok subject
  then (true, Z.land dwFlags (Z.lnot CERT_STORE_SIGNATURE_FLAG))
  else (true, dwFlags).

(** Basic constraints are one byte under the provider: 01 for a CA. *)
Definition sc_decode (enc structType : DWORD) (v : CRYPT_DATA_BLOB) (flags : DWORD)
  : option CERT_BASIC_CONSTRAINTS2_INFO :=
  match v with
  | [b] => Some (mkBasicConstraints (Byte.eqb b x01) false 0)
  | _ => None
  end.

Definition provider (sc : Scenario) : WinCrypt :=
  mkWinCrypt
    (sc_query sc)
    (fun _ _ _ => option_map fst (sc_signer sc))
    (fun _ _ _ _ => option_map snd (sc_signer sc))
    (fun _ cert _ _ _ => if sc_chain sc then Some [cert] else None)
    (fun policy _ _ =>
       let '(ret, err) := if policy =? CERT_CHAIN_POLICY_MICROSOFT_ROOT
                          then sc_msroot sc else sc_authenticode sc in
       (ret, mkPolicyStatus err))
    (sc_eku_size sc)
    (sc_eku_data sc)
    sc_verify
    sc_decode.

(** *** Certificates and blobs of the examples *)

Definition bytes_of (s : string) : list byte := list_byte_of_string s.

Definition storeOid : string := "1.3.6.1.4.1.311.76.3.1".
Definition codeSigningOid : string := "1.3.6.1.5.5.7.3.3".

Definition headers : AppxHeaders := mkHeaders 1480805200 storeOid 1 2.  (* 0x58434b50 *)

(** A root: self-issued, signature verifies, CA. *)
Definition rootCert : CERT_CONTEXT :=
  mkCertContext 1 [x01; x52]
    (mkCertInfo [x01] (bytes_of "CN=Root") (bytes_of "CN=Root")
       [mkExtension szOID_BASIC_CONSTRAINTS2 true [x01]]).

(** An intermediate CA issued by the root. *)
Definition caCert : CERT_CONTEXT :=
  mkCertContext 1 [x01; x49]
    (mkCertInfo [x02] (bytes_of "CN=Root") (bytes_of "CN=Issuing CA")
       [mkExtension szOID_BASIC_CONSTRAINTS2 true [x01]]).

(** The signer: issued by the CA, no basic constraints. *)
Definition leafCert : CERT_CONTEXT :=
  mkCertContext 1 [x01; x4c]
    (mkCertInfo [x07] (bytes_of "CN=Issuing CA") (bytes_of "CN=Publisher") []).

(** Issuer equal to subject, but the signature does not verify. *)
Definition selfNamedCert : CERT_CONTEXT :=
  mkCertContext 1 [x00; x58]
    (mkCertInfo [x09] (bytes_of "CN=Mallory") (bytes_of "CN=Mallory") []).

Definition leafSigner : CMSG_SIGNER_INFO :=
  mkSignerInfo (bytes_of "CN=Issuing CA") [x07].

Definition p7s : CRYPT_DATA_BLOB := [x30; x82; x00; x01; x06].

(** "PKCX", the bytes of 0x58434b50 in memory order, then the blob. *)
Definition p7x : list byte := [x50; x4b; x43; x58] ++ p7s.

(** A bundle signed by [leafCert]: store EKU in the extension, both
    policies verified with no error. *)
Definition storeSigned : Scenario :=
  mkScenario CERT_QUERY_CONTENT_PKCS7_SIGNED [rootCert; caCert; leafCert]
    (Some (64, leafSigner)) true (true, 0) (true, 0)
    (Ok (32, [codeSigningOid; storeOid])) (Fail CRYPT_E_NOT_FOUND).

(** The same bundle when neither policy call returns TRUE and the signer
    has no EKU at all. *)
Definition untrusted : Scenario :=
  mkScenario CERT_QUERY_CONTENT_PKCS7_SIGNED [rootCert; caCert; leafCert]
    (Some (64, leafSigner)) true (false, CERT_E_UNTRUSTEDROOT) (false, CERT_E_UNTRUSTEDROOT)
    (Fail CRYPT_E_NOT_FOUND) (Fail CRYPT_E_NOT_FOUND).

(** The same bundle when no chain can be built. *)
Definition chainless : Scenario :=
  mkScenario CERT_QUERY_CONTENT_PKCS7_SIGNED [rootCert; caCert; leafCert]
    (Some (64, leafSigner)) false (true, 0) (true, 0)
    (Fail CRYPT_E_NOT_FOUND) (Fail CRYPT_E_NOT_FOUND).

(** The policy calls return TRUE and report an untrusted root. *)
Definition untrustedRoot : Scenario :=
  mkScenario CERT_QUERY_CONTENT_PKCS7_SIGNED [rootCert; caCert; leafCert]
    (Some (64, leafSigner)) true (true, CERT_E_UNTRUSTEDROOT) (true, CERT_E_UNTRUSTEDROOT)
    (Ok (32, [storeOid])) (Fail CRYPT_E_NOT_FOUND).

(** An EKU extension that lists no identifier, the store identifier in
    the property. *)
Definition emptyExtension : Scenario :=
  mkScenario CERT_QUERY_CONTENT_PKCS7_SIGNED [rootCert; caCert; leafCert]
    (Some (64, leafSigner)) true (true, 0) (true, 0)
    (Ok (16, [])) (Ok (32, [storeOid])).

(** No EKU extension, the store identifier in the property. *)
Definition propertyOnly : Scenario :=
  mkScenario CERT_QUERY_CONTENT_PKCS7_SIGNED [rootCert; caCert; leafCert]
    (Some (64, leafSigner)) true (true, 0) (true, 0)
    (Fail CRYPT_E_NOT_FOUND) (Ok (32, [storeOid])).

(** A bundle whose signer info names a certificate it does not carry. *)
Definition strangerSigner : Scenario :=
  mkScenario CERT_QUERY_CONTENT_PKCS7_SIGNED [rootCert; caCert; leafCert]
    (Some (64, mkSignerInfo (bytes_of "CN=Issuing CA") [x08])) true (true, 0) (true, 0)
    (Fail CRYPT_E_NOT_FOUND) (Fail CRYPT_E_NOT_FOUND).

(** A bundle that carries a self-named certificate before the signer. *)
Definition selfNamedFirst : Scenario :=
  mkScenario CERT_QUERY_CONTENT_PKCS7_SIGNED [rootCert; selfNamedCert; leafCert]
    (Some (64, leafSigner)) true (true, 0) (true, 0)
    (Fail CRYPT_E_NOT_FOUND) (Fail CRYPT_E_NOT_FOUND).

(** A bundle that carries nothing but the root and the issuing CA. *)
Definition authoritiesOnly : Scenario :=
  mkScenario CERT_QUERY_CONTENT_PKCS7_SIGNED [rootCert; caCert]
    (Some (64, leafSigner)) true (true, 0) (true, 0)
    (Fail CRYPT_E_NOT_FOUND) (Fail CRYPT_E_NOT_FOUND).

(** The store identifier in the extension; reading the property fails
    with ERROR_ACCESS_DENIED. *)
Definition propertyError : Scenario :=
  mkScenario CERT_QUERY_CONTENT_PKCS7_SIGNED [rootCert; caCert; leafCert]
    (Some (64, leafSigner)) true (true, 0) (true, 0)
    (Ok (32, [storeOid])) (Fail 5).

(** A blob that is one bare certificate, the root. *)
Definition bareCertificate : Scenario :=
  mkScenario CERT_QUERY_CONTENT_CERT [rootCert]
    None false (false, 0) (false, 0)
    (Fail CRYPT_E_NOT_FOUND) (Fail CRYPT_E_NOT_FOUND).

(** The script under which the container stage hands [p7s] on. *)
Definition p7xScript : Script :=
  mkScript [(S_OK, 9); (S_OK, 9)] [(S_OK, [x50; x4b; x43; x58]); (S_OK, p7s)].

(** ** Vocabulary of the properties *)

(** What the API documents as "the chain satisfies the policy": the call
    returns TRUE (the policy could be checked) and the status it writes
    carries no error. *)
Definition chain_satisfies_policy (W : WinCrypt) (policy : DWORD)
    (chain : CERT_CHAIN_CONTEXT) (para : CERT_CHAIN_POLICY_PARA) : Prop :=
  fst (CertVerifyCertificateChainPolicy W policy chain para) = true /\
  dwError (snd (CertVerifyCertificateChainPolicy W policy chain para)) = 0.

(** The certificate's signature verifies under its own public key: the
    call succeeds and clears the signature bit it was asked to check. *)
Definition self_signature_verifies (W : WinCrypt) (c : CERT_CONTEXT) : Prop :=
  exists dwFlag,
    CertVerifySubjectCertificateContext W c c CERT_STORE_SIGNATURE_FLAG = (true, dwFlag) /\
    Z.land dwFlag CERT_STORE_SIGNATURE_FLAG = 0.

(** The test of the enumeration loop. *)
Definition passed_over (W : WinCrypt) (c : CERT_CONTEXT) : bool :=
  IsCertificateSelfSigned W (Some c) (dwCertEncodingType c) 0 || IsCACert W c.

(** The EKU source selected by [dwFlags] is not there: the size call
    fails with CRYPT_E_NOT_FOUND. *)
Definition eku_absent (W : WinCrypt) (cert : PCCERT_CONTEXT) (dwFlags : DWORD) : Prop :=
  CertGetEnhancedKeyUsage_size W cert dwFlags = Fail CRYPT_E_NOT_FOUND.

(** The EKU source selected by [dwFlags] is there and decodes to
    [usage], in [cb] > 0 bytes. *)
Definition eku_present (W : WinCrypt) (cert : PCCERT_CONTEXT) (dwFlags : DWORD)
    (cb : DWORD) (usage : CERT_ENHKEY_USAGE) : Prop :=
  CertGetEnhancedKeyUsage_size W cert dwFlags = Ok cb /\ 0 < cb /\
  CertGetEnhancedKeyUsage W cert dwFlags cb = Ok usage.

(** The blob parses as a signed message, its signer info is read and its
    signer is found in the store. *)
Definition signer_resolved (W : WinCrypt) (buffer : CRYPT_DATA_BLOB)
    (q : QUERY_OBJECT) (signerInfo : CMSG_SIGNER_INFO) (cert : CERT_CONTEXT) : Prop :=
  CryptQueryObject W CERT_QUERY_OBJECT_BLOB buffer
    CERT_QUERY_CONTENT_FLAG_PKCS7_SIGNED CERT_QUERY_FORMAT_FLAG_BINARY = Some q /\
  (exists signerInfoSize,
      CryptMsgGetParam_size W (hMsg q) CMSG_SIGNER_INFO_PARAM 0 = Some signerInfoSize /\
      signerInfoSize <> 0 /\ signerInfoSize < STRSAFE_MAX_CCH /\
      CryptMsgGetParam W (hMsg q) CMSG_SIGNER_INFO_PARAM 0 signerInfoSize = Some signerInfo) /\
  CertGetSubjectCertificateFromStore (hCertStore q)
    (Z.lor X509_ASN_ENCODING PKCS_7_ASN_ENCODING)
    (si_Issuer signerInfo) (si_SerialNumber signerInfo) = Some cert.

(** Everything up to chain building succeeds, and chain building returns
    FALSE. *)
Definition chain_cannot_be_built (W : WinCrypt) (buffer : CRYPT_DATA_BLOB) : Prop :=
  exists q signerInfo cert,
    signer_resolved W buffer q signerInfo cert /\
    CertGetCertificateChain W HCCE_LOCAL_MACHINE cert (hCertStore q)
      (mkChainPara USAGE_MATCH_TYPE_AND) CERT_CHAIN_CACHE_ONLY_URL_RETRIEVAL = None.

(** * Properties *)

(** ** Validate: the skip path and the container stage *)

Section ValidateFacts.

Variable H : AppxHeaders.
Variable S : Type.
Variable Digests : Type.
Variable stream : IStream S.

Lemma Validate_skip (W : WinCrypt) (option : Z) (st : VState S Digests) :
  Z.land option (APPX_VALIDATION_OPTION_SKIPSIGNATURE H) <> 0 ->
  Validate H W stream option st = (Return false, st).
Proof.
  intros Hskip. unfold Validate.
  destruct (Z.eqb_spec (Z.land option (APPX_VALIDATION_OPTION_SKIPSIGNATURE H)) 0)
    as [E | _]; [contradiction | reflexivity].
Qed.

(** Without the skip bit [Validate] is the container stage followed by
    the origin condition under [ThrowErrorIfNot]. *)
Lemma Validate_noskip (W : WinCrypt) (option : Z) (st : VState S Digests) :
  Z.land option (APPX_VALIDATION_OPTION_SKIPSIGNATURE H) = 0 ->
  Validate H W stream option st =
  match ReadP7x H stream st with
  | (Return buffer, st') =>
    match OriginCondition H W option buffer with
    | Return true => (Return true, st')
    | Return false => (Throw AppxSignatureInvalid, st')
    | Throw e => (Throw e, st')
    end
  | (Throw e, st') => (Throw e, st')
  end.
Proof.
  intros Hskip. unfold Validate. rewrite Hskip. cbn [Z.eqb negb].
  unfold bind at 1.
  destruct (ReadP7x H stream st) as [[buffer | e] st']; [| reflexivity].
  unfold bind, liftR, ThrowErrorIfNot, throw, ret.
  destruct (OriginCondition H W option buffer) as [[|] | e]; reflexivity.
Qed.

(** The container stage throws nothing but the two kinds of exception,
    and the length test comes right after the first [Seek]. *)
Lemma ReadP7x_length_bound (s s1 : S) (d : Digests) (hr : HRESULT) (n : ULARGE_INTEGER) :
  Seek stream 0 END s = (hr, n, s1) ->
  FAILED hr = false ->
  n <= 4 \/ n > 2097152 ->
  ReadP7x H stream (s, d) = (Throw AppxSignatureInvalid, (s1, d)).
Proof.
  intros Hseek Hhr Hn.
  unfold ReadP7x, bind, stream_Seek. rewrite Hseek.
  unfold ThrowHrIfFailed. rewrite Hhr. unfold ret, ThrowErrorIf, sizeof_P7X_FILE_ID.
  replace (Z.shiftl 2 20) with 2097152 by reflexivity.
  assert (Hc : (n <=? 4) || (n >? 2097152) = true).
  { apply orb_true_iff. destruct Hn as [Hn | Hn]; [left | right].
    - now apply Z.leb_le.
    - apply Z.gtb_lt. lia. }
  rewrite Hc. reflexivity.
Qed.

End ValidateFacts.

(** C8.  When the stream reports, on the seek to its end, a length of at
    most 4 bytes (the header size) or of more than 2,097,152 bytes,
    [Validate] (signature validation not skipped) throws
    AppxSignatureInvalid.  The stream is left as that one [Seek] left it
    (nothing was read from it), the digests are untouched, and the outcome
    is the same for every provider: the blob is never handed to it. *)
Theorem Validate_rejects_bad_length :
  forall (H : AppxHeaders) (S Digests : Type) (stream : IStream S) (option : Z)
         (s s1 : S) (d : Digests) (hr : HRESULT) (n : ULARGE_INTEGER),
    Z.land option (APPX_VALIDATION_OPTION_SKIPSIGNATURE H) = 0 ->
    Seek stream 0 END s = (hr, n, s1) ->
    FAILED hr = false ->
    n <= sizeof_P7X_FILE_ID \/ n > 2097152 ->
    forall W : WinCrypt,
      Validate H W stream option (s, d) = (Throw AppxSignatureInvalid, (s1, d)).
Proof.
  intros H S Digests stream option s s1 d hr n Hskip Hseek Hhr Hn W.
  rewrite Validate_noskip by assumption.
  rewrite (ReadP7x_length_bound H S Digests stream s s1 d hr n Hseek Hhr Hn).
  reflexivity.
Qed.

(** A stream of four bytes, the magic and nothing behind it; the
    provider would have accepted any blob. *)
Lemma Validate_rejects_bad_length_witness :
  Validate headers (provider storeSigned) memStream 0 (mkMem [x50; x4b; x43; x58] 0, tt)
  = (Throw AppxSignatureInvalid, (mkMem [x50; x4b; x43; x58] 4, tt)).
Proof.
  apply (Validate_rejects_bad_length headers MemStream unit memStream 0
           (mkMem [x50; x4b; x43; x58] 0) (mkMem [x50; x4b; x43; x58] 4) tt S_OK 4).
  - reflexivity.
  - reflexivity.
  - reflexivity.
  - left. unfold sizeof_P7X_FILE_ID. lia.
Defined.

(** C9.  With the SkipSignature bit in the option, [Validate] returns
    false at once: no exception, whatever the stream holds and whatever
    the provider would say; the stream is in the state it was passed in
    (no [Seek], no [Read]) and the digests map is the one passed in. *)
Theorem Validate_skip_signature :
  forall (H : AppxHeaders) (W : WinCrypt) (S Digests : Type) (stream : IStream S)
         (option : Z) (s : S) (d : Digests),
    Z.land option (APPX_VALIDATION_OPTION_SKIPSIGNATURE H) <> 0 ->
    Validate H W stream option (s, d) = (Return false, (s, d)).
Proof.
  intros. now apply Validate_skip.
Qed.

(** A stream of garbage (the magic is wrong), skipped. *)
Lemma Validate_skip_signature_witness :
  Validate headers (provider untrusted) memStream 3
    (mkMem [x00; x01; x02; x03; x04; x05] 0, [x07])
  = (Return false, (mkMem [x00; x01; x02; x03; x04; x05] 0, [x07])).
Proof.
  apply (Validate_skip_signature headers (provider untrusted) MemStream (list byte)
           memStream 3).
  vm_compute. discriminate.
Defined.

(** ** Validate: the origin decision *)

Section OriginFacts.

Variable H : AppxHeaders.
Variable W : WinCrypt.


Lemma queryUsage_throw (cert : PCCERT_CONTEXT) (flags : DWORD) (e : Error) :
  queryUsage W cert flags = Throw e -> e = AppxSignatureInvalid.
Proof.
  unfold queryUsage.
  repeat match goal with
         | |- context [match ?x with _ => _ end] => destruct x
         end; congruence.
Qed.

Lemma GetEnhancedKeyUsage_throw (cert : PCCERT_CONTEXT) (values : list string) (e : Error) :
  GetEnhancedKeyUsage W cert values = Throw e -> e = AppxSignatureInvalid.
Proof.
  unfold GetEnhancedKeyUsage, rbind.
  destruct (queryUsage W cert CERT_FIND_EXT_ONLY_ENHKEY_USAGE_FLAG) as [[n1 u1] | e1] eqn:E1.
  - destruct (queryUsage W cert CERT_FIND_PROP_ONLY_ENHKEY_USAGE_FLAG) as [[n2 u2] | e2] eqn:E2.
    + destruct (n1 >? 0); [congruence |]. destruct (n2 >? 0); congruence.
    + intros Heq. inversion Heq; subst. eapply queryUsage_throw; eassumption.
  - intros Heq. inversion Heq; subst. eapply queryUsage_throw; eassumption.
Qed.

Lemma GetCertContext_throw (buffer : CRYPT_DATA_BLOB) (e : Error) :
  GetCertContext W buffer = Throw e -> e = AppxSignatureInvalid.
Proof.
  unfold GetCertContext.
  repeat match goal with
         | |- context [match ?x with _ => _ end] => destruct x
         end; congruence.
Qed.

Lemma DoesSignatureCertContainStoreEKU_throw (buffer : CRYPT_DATA_BLOB) (e : Error) :
  DoesSignatureCertContainStoreEKU H W buffer = Throw e -> e = AppxSignatureInvalid.
Proof.
  unfold DoesSignatureCertContainStoreEKU, rbind.
  destruct (GetCertContext W buffer) as [cert | e1] eqn:E1.
  - destruct (GetEnhancedKeyUsage W cert []) as [[r oids] | e2] eqn:E2.
    + destruct r; congruence.
    + intros Heq. inversion Heq; subst. eapply GetEnhancedKeyUsage_throw; eassumption.
  - intros Heq. inversion Heq; subst. eapply GetCertContext_throw; eassumption.
Qed.




(** When both origin checks return, the condition is their disjunction
    with the AllowUnknownOrigin bit. *)
Lemma OriginCondition_returns (option : Z) (buffer : CRYPT_DATA_BLOB) (so au : bool) :
  IsStoreOrigin H W buffer = Return so ->
  IsAuthenticodeOrigin W buffer = Return au ->
  OriginCondition H W option buffer =
  Return (so || au || negb (Z.land option (APPX_VALIDATION_OPTION_ALLOWUNKNOWNORIGIN H) =? 0)).
Proof.
  intros Hso Hau. unfold OriginCondition, rbind. rewrite Hso, Hau.
  destruct so, au; reflexivity.
Qed.

End OriginFacts.

(** Without the skip bit [Validate] never returns false: it returns true
    or throws. *)
Lemma Validate_noskip_never_false :
  forall (H : AppxHeaders) (W : WinCrypt) (S Digests : Type) (stream : IStream S)
         (option : Z) (st : VState S Digests),
    Z.land option (APPX_VALIDATION_OPTION_SKIPSIGNATURE H) = 0 ->
    fst (Validate H W stream option st) <> Return false.
Proof.
  intros H W S Digests stream option st Hskip.
  rewrite Validate_noskip by assumption.
  destruct (ReadP7x H stream st) as [[buffer | e] st']; [| discriminate].
  destruct (OriginCondition H W option buffer) as [[|] | e]; discriminate.
Qed.

(** The decision as designed: once the container stage has delivered the
    blob and both origin checks return, [Validate] returns true exactly
    when one of them is true or AllowUnknownOrigin is set, and throws
    otherwise. *)
Lemma Validate_decision :
  forall (H : AppxHeaders) (W : WinCrypt) (S Digests : Type) (stream : IStream S)
         (option : Z) (st st' : VState S Digests) (buffer : CRYPT_DATA_BLOB) (so au : bool),
    Z.land option (APPX_VALIDATION_OPTION_SKIPSIGNATURE H) = 0 ->
    ReadP7x H stream st = (Return buffer, st') ->
    IsStoreOrigin H W buffer = Return so ->
    IsAuthenticodeOrigin W buffer = Return au ->
    Validate H W stream option st =
    (if so || au || negb (Z.land option (APPX_VALIDATION_OPTION_ALLOWUNKNOWNORIGIN H) =? 0)
     then Return true else Throw AppxSignatureInvalid, st').
Proof.
  intros H W S Digests stream option st st' buffer so au Hskip Hread Hso Hau.
  rewrite Validate_noskip by assumption. rewrite Hread.
  rewrite (OriginCondition_returns H W option buffer so au Hso Hau).
  destruct (so || au || negb (Z.land option (APPX_VALIDATION_OPTION_ALLOWUNKNOWNORIGIN H) =? 0));
    reflexivity.
Qed.

(** C1 (as amended).  When the container stage has delivered a blob
    whose store-origin and authenticode-origin checks both return false,
    and neither SkipSignature nor AllowUnknownOrigin is set, [Validate]
    does not return false: [ThrowErrorIfNot] throws AppxSignatureInvalid,
    the exception malformed input raises as well.  Without SkipSignature
    no call of [Validate] on the stream returns false. *)
Theorem Validate_untrusted_throws :
  forall (H : AppxHeaders) (W : WinCrypt) (S Digests : Type) (stream : IStream S)
         (option : Z) (st st' : VState S Digests) (buffer : CRYPT_DATA_BLOB),
    Z.land option (APPX_VALIDATION_OPTION_SKIPSIGNATURE H) = 0 ->
    Z.land option (APPX_VALIDATION_OPTION_ALLOWUNKNOWNORIGIN H) = 0 ->
    ReadP7x H stream st = (Return buffer, st') ->
    IsStoreOrigin H W buffer = Return false ->
    IsAuthenticodeOrigin W buffer = Return false ->
    Validate H W stream option st = (Throw AppxSignatureInvalid, st') /\
    (forall (W' : WinCrypt) (st0 : VState S Digests),
        fst (Validate H W' stream option st0) <> Return false).
Proof.
  intros H W S Digests stream option st st' buffer Hskip Hallow Hread Hso Hau.
  split.
  - rewrite (Validate_decision H W S Digests stream option st st' buffer false false)
      by assumption.
    rewrite Hallow. reflexivity.
  - intros W' st0. now apply Validate_noskip_never_false.
Qed.

(** The scripted stream answers the rewind with the position 9, so that
    the container stage hands the five bytes of [p7s] on. *)
Lemma Validate_untrusted_throws_witness :
  Validate headers (provider untrusted) scriptStream 0
    (mkScript [(S_OK, 9); (S_OK, 9)] [(S_OK, [x50; x4b; x43; x58]); (S_OK, p7s)], tt)
  = (Throw AppxSignatureInvalid, (mkScript [] [], tt)).
Proof.
  apply (Validate_untrusted_throws headers (provider untrusted) Script unit scriptStream 0
           (mkScript [(S_OK, 9); (S_OK, 9)] [(S_OK, [x50; x4b; x43; x58]); (S_OK, p7s)], tt)
           (mkScript [] [], tt) p7s); reflexivity.
Defined.

(** C1, refuted as stated: a nine-byte stream, the magic followed by a
    blob the provider parses and for which both origin checks return
    false; no option set.  [Validate] throws instead of returning false. *)
Lemma Validate_untrusted_not_returned :
  IsStoreOrigin headers (provider untrusted) p7s = Return false /\
  IsAuthenticodeOrigin (provider untrusted) p7s = Return false /\
  fst (Validate headers (provider untrusted) memStream 0 (mkMem p7x 0, tt))
  = Throw AppxSignatureInvalid /\
  fst (Validate headers (provider untrusted) memStream 0 (mkMem p7x 0, tt))
  <> Return false.
Proof.
  repeat split; try reflexivity. vm_compute. discriminate.
Qed.

(** ** The container stage on a stream that keeps the contract *)

Lemma memRead_bound (cb : ULONG) (st : MemStream) :
  Z.of_nat (List.length (snd (fst (memRead cb st)))) <= Z.of_nat (List.length (ms_data st)).
Proof.
  unfold memRead. cbn [fst snd].
  apply Nat2Z.inj_le.
  etransitivity; [apply firstn_le_length |].
  rewrite length_skipn. lia.
Qed.

(** After the rewind has overwritten [uli] with the position 0, line 445
    asks for 2^32 - 4 bytes. *)
Lemma streamSize_after_rewind : wrap32 (LowPart 0 - sizeof_fileID) = 4294967292.
Proof. reflexivity. Qed.

(** On an in-memory stream the container stage always throws: either the
    length or the magic is refused, or the read of 2^32 - 4 bytes comes
    back short. *)
Lemma ReadP7x_memStream_throws :
  forall (H : AppxHeaders) (Digests : Type) (st : MemStream) (d : Digests),
    exists st', ReadP7x H memStream (st, d) = (Throw AppxSignatureInvalid, st').
Proof.
  intros H Digests [data pos] d.
  unfold ReadP7x, bind, stream_Seek. cbn [Seek memStream].
  unfold memSeek at 1. cbn [ms_data ms_pos].
  rewrite Z.add_0_r.
  destruct (Z.ltb_spec (Z.of_nat (List.length data)) 0) as [Hneg | _]; [lia |].
  unfold ThrowHrIfFailed at 1. cbn [FAILED S_OK Z.ltb Z.compare ret].
  unfold ThrowErrorIf at 1.
  destruct ((Z.of_nat (List.length data) <=? sizeof_P7X_FILE_ID)
            || (Z.of_nat (List.length data) >? Z.shiftl 2 20)) eqn:Hlen.
  { eexists. reflexivity. }
  cbn [ret]. unfold memSeek. cbn [ms_data ms_pos Z.add Z.ltb Z.compare].
  unfold ThrowHrIfFailed at 1. cbn [FAILED S_OK Z.ltb Z.compare ret].
  unfold stream_Read at 1. cbn [Read memStream].
  destruct (memRead sizeof_fileID (mkMem data 0)) as [[hr1 stored1] st1] eqn:Hr1.
  assert (Hhr1 : hr1 = S_OK) by (unfold memRead in Hr1; congruence).
  assert (Hd1 : ms_data st1 = data) by (unfold memRead in Hr1; inversion Hr1; reflexivity).
  subst hr1.
  unfold ThrowHrIfFailed at 1. cbn [FAILED S_OK Z.ltb Z.compare ret].
  unfold ThrowErrorIf at 1.
  destruct (negb (dword_of_bytes (firstn 4 stored1) =? P7X_FILE_ID H)).
  { eexists. reflexivity. }
  cbn [ret]. rewrite streamSize_after_rewind.
  unfold stream_Read. cbn [Read memStream].
  pose proof (memRead_bound 4294967292 st1) as Hb.
  destruct (memRead 4294967292 st1) as [[hr2 stored2] st2] eqn:Hr2.
  assert (Hhr2 : hr2 = S_OK) by (unfold memRead in Hr2; congruence).
  subst hr2. cbn [fst snd] in Hb. rewrite Hd1 in Hb.
  unfold ThrowHrIfFailed. cbn [FAILED S_OK Z.ltb Z.compare ret].
  unfold ThrowErrorIf.
  apply orb_false_iff in Hlen. destruct Hlen as [_ Hmax].
  replace (Z.shiftl 2 20) with 2097152 in Hmax by reflexivity.
  assert (Hmax' : Z.of_nat (List.length data) <= 2097152).
  { destruct (Z.gtb_spec (Z.of_nat (List.length data)) 2097152); [discriminate | lia]. }
  destruct (Z.eqb_spec (Z.of_nat (List.length stored2)) 4294967292) as [Heq | Hne]; [lia |].
  cbn [negb]. eexists. reflexivity.
Qed.

(** Hence no package read from such a stream is ever accepted. *)
Lemma Validate_memStream_never_accepts :
  forall (H : AppxHeaders) (W : WinCrypt) (Digests : Type) (option : Z)
         (st : MemStream) (d : Digests),
    fst (Validate H W memStream option (st, d)) <> Return true.
Proof.
  intros H W Digests option st d.
  destruct (Z.eq_dec (Z.land option (APPX_VALIDATION_OPTION_SKIPSIGNATURE H)) 0) as [E | E].
  - rewrite Validate_noskip by assumption.
    destruct (ReadP7x_memStream_throws H Digests st d) as [st' ->]. discriminate.
  - rewrite Validate_skip by assumption. discriminate.
Qed.

(** C2, the code at the failing input: the magic followed by a blob
    signed with a store certificate whose chain satisfies the
    Microsoft-root policy.  The store-origin check is true on the blob,
    so is the authenticode one, and also with AllowUnknownOrigin set
    [Validate] throws: the read of line 448 asks for 2^32 - 4 bytes, gets
    the five there are, and line 449 throws.  The same happens to every
    package read from an in-memory stream: none is accepted. *)
Theorem Validate_store_signed_package :
  IsStoreOrigin headers (provider storeSigned) p7s = Return true /\
  IsAuthenticodeOrigin (provider storeSigned) p7s = Return true /\
  fst (ReadP7x headers memStream (mkMem p7x 0, tt)) = Throw AppxSignatureInvalid /\
  Validate headers (provider storeSigned) memStream 0 (mkMem p7x 0, tt)
  = (Throw AppxSignatureInvalid, (mkMem p7x 9, tt)) /\
  Validate headers (provider storeSigned) memStream
    (APPX_VALIDATION_OPTION_ALLOWUNKNOWNORIGIN headers) (mkMem p7x 0, tt)
  = (Throw AppxSignatureInvalid, (mkMem p7x 9, tt)) /\
  (forall (H : AppxHeaders) (W : WinCrypt) (option : Z) (data : list byte),
      fst (Validate H W memStream option (mkMem data 0, tt)) <> Return true).
Proof.
  repeat split; try reflexivity.
  intros H W option data. apply Validate_memStream_never_accepts.
Qed.

(** ** Chain building and the two policies *)

Lemma chain_cannot_be_built_throws (W : WinCrypt) (buffer : CRYPT_DATA_BLOB) :
  chain_cannot_be_built W buffer ->
  GetCertChainContext W buffer = Throw AppxSignatureInvalid.
Proof.
  intros (q & signerInfo & cert & (Hq & (size & Hsize & Hnz & Hlt & Hinfo) & Hcert) & Hchain).
  unfold GetCertChainContext. rewrite Hq, Hsize.
  assert (Hguard : (size =? 0) || (size >=? STRSAFE_MAX_CCH) = false).
  { apply orb_false_iff. split.
    - apply Z.eqb_neq. lia.
    - destruct (Z.geb_spec size STRSAFE_MAX_CCH); [lia | reflexivity]. }
  rewrite Hguard, Hinfo, Hcert, Hchain. reflexivity.
Qed.

(** C3 (as amended).  When everything up to chain building succeeds and
    [CertGetCertificateChain] returns FALSE, [GetCertChainContext] throws
    AppxSignatureInvalid and nothing catches it: the authenticode-origin
    check throws it; the store-origin check returns false only when the
    EKU test returned false (no chain is asked for then) and throws
    otherwise; and once the container stage has delivered the blob,
    [Validate] throws AppxSignatureInvalid, with AllowUnknownOrigin set or
    not. *)
Theorem chain_failure_is_thrown :
  forall (H : AppxHeaders) (W : WinCrypt) (buffer : CRYPT_DATA_BLOB),
    chain_cannot_be_built W buffer ->
    GetCertChainContext W buffer = Throw AppxSignatureInvalid /\
    IsAuthenticodeOrigin W buffer = Throw AppxSignatureInvalid /\
    IsStoreOrigin H W buffer =
      match DoesSignatureCertContainStoreEKU H W buffer with
      | Return false => Return false
      | _ => Throw AppxSignatureInvalid
      end /\
    forall (S Digests : Type) (stream : IStream S) (option : Z) (st st' : VState S Digests),
      Z.land option (APPX_VALIDATION_OPTION_SKIPSIGNATURE H) = 0 ->
      ReadP7x H stream st = (Return buffer, st') ->
      Validate H W stream option st = (Throw AppxSignatureInvalid, st').
Proof.
  intros H W buffer Hfail.
  pose proof (chain_cannot_be_built_throws W buffer Hfail) as Hchain.
  assert (Hau : IsAuthenticodeOrigin W buffer = Throw AppxSignatureInvalid).
  { unfold IsAuthenticodeOrigin, rbind. now rewrite Hchain. }
  assert (Hso : IsStoreOrigin H W buffer =
                match DoesSignatureCertContainStoreEKU H W buffer with
                | Return false => Return false
                | _ => Throw AppxSignatureInvalid
                end).
  { unfold IsStoreOrigin, rbind.
    destruct (DoesSignatureCertContainStoreEKU H W buffer) as [[|] | e] eqn:E.
    - now rewrite Hchain.
    - reflexivity.
    - now rewrite (DoesSignatureCertContainStoreEKU_throw H W buffer e E). }
  repeat split; try assumption.
  intros S Digests stream option st st' Hskip Hread.
  rewrite Validate_noskip by assumption. rewrite Hread.
  unfold OriginCondition, rbind. rewrite Hso, Hau.
  destruct (DoesSignatureCertContainStoreEKU H W buffer) as [[|] | e]; reflexivity.
Qed.

Lemma chainless_cannot_be_built : chain_cannot_be_built (provider chainless) p7s.
Proof.
  exists (mkQuery CERT_QUERY_CONTENT_PKCS7_SIGNED [rootCert; caCert; leafCert] 1),
         leafSigner, leafCert.
  split; [split; [reflexivity | split; [| reflexivity]] | reflexivity].
  exists 64. split; [reflexivity | split; [discriminate | split; [reflexivity | reflexivity]]].
Defined.

(** AllowUnknownOrigin is set; the scripted stream hands [p7s] on. *)
Lemma chain_failure_is_thrown_witness :
  IsAuthenticodeOrigin (provider chainless) p7s = Throw AppxSignatureInvalid /\
  IsStoreOrigin headers (provider chainless) p7s = Return false /\
  Validate headers (provider chainless) scriptStream
    (APPX_VALIDATION_OPTION_ALLOWUNKNOWNORIGIN headers)
    (mkScript [(S_OK, 9); (S_OK, 9)] [(S_OK, [x50; x4b; x43; x58]); (S_OK, p7s)], tt)
  = (Throw AppxSignatureInvalid, (mkScript [] [], tt)).
Proof.
  destruct (chain_failure_is_thrown headers (provider chainless) p7s
              chainless_cannot_be_built) as (_ & Hau & Hso & Hval).
  split; [exact Hau | split; [exact Hso |]].
  apply Hval; reflexivity.
Defined.

(** C3, refuted as stated: the bundle parses, its signer is found, no
    chain can be built.  The authenticode-origin check does not report
    false, it throws; and with AllowUnknownOrigin set [Validate] does not
    accept. *)
Lemma chain_failure_not_reported_false :
  chain_cannot_be_built (provider chainless) p7s /\
  IsAuthenticodeOrigin (provider chainless) p7s = Throw AppxSignatureInvalid /\
  IsAuthenticodeOrigin (provider chainless) p7s <> Return false /\
  fst (Validate headers (provider chainless) memStream
         (APPX_VALIDATION_OPTION_ALLOWUNKNOWNORIGIN headers) (mkMem p7x 0, tt))
  <> Return true.
Proof.
  split; [exact chainless_cannot_be_built |].
  split; [reflexivity |].
  split; [vm_compute; discriminate |].
  apply Validate_memStream_never_accepts.
Qed.

(** The two trust tests return the BOOL of the policy call, each for its
    policy: Microsoft root with the application-root flag, Authenticode
    with no flag. *)
Lemma IsMicrosoftTrustedChain_eq (W : WinCrypt) (chain : CERT_CHAIN_CONTEXT) :
  IsMicrosoftTrustedChain W chain =
  fst (CertVerifyCertificateChainPolicy W CERT_CHAIN_POLICY_MICROSOFT_ROOT chain
         (mkPolicyPara MICROSOFT_ROOT_CERT_CHAIN_POLICY_CHECK_APPLICATION_ROOT_FLAG)).
Proof.
  unfold IsMicrosoftTrustedChain.
  now destruct (CertVerifyCertificateChainPolicy W _ chain _).
Qed.

Lemma IsAuthenticodeTrustedChain_eq (W : WinCrypt) (chain : CERT_CHAIN_CONTEXT) :
  IsAuthenticodeTrustedChain W chain =
  fst (CertVerifyCertificateChainPolicy W CERT_CHAIN_POLICY_AUTHENTICODE chain
         (mkPolicyPara 0)).
Proof.
  unfold IsAuthenticodeTrustedChain.
  now destruct (CertVerifyCertificateChainPolicy W _ chain _).
Qed.

(** A chain that satisfies the policy is reported trusted. *)
Lemma satisfied_policy_is_trusted (W : WinCrypt) (chain : CERT_CHAIN_CONTEXT) :
  (chain_satisfies_policy W CERT_CHAIN_POLICY_MICROSOFT_ROOT chain
     (mkPolicyPara MICROSOFT_ROOT_CERT_CHAIN_POLICY_CHECK_APPLICATION_ROOT_FLAG) ->
   IsMicrosoftTrustedChain W chain = true) /\
  (chain_satisfies_policy W CERT_CHAIN_POLICY_AUTHENTICODE chain (mkPolicyPara 0) ->
   IsAuthenticodeTrustedChain W chain = true).
Proof.
  split; intros [Hret _].
  - now rewrite IsMicrosoftTrustedChain_eq.
  - now rewrite IsAuthenticodeTrustedChain_eq.
Qed.

(** C4, the code at the failing input: the policy calls return TRUE (the
    policies were checked) and write CERT_E_UNTRUSTEDROOT into the
    status.  Both trust tests answer true for a chain that satisfies
    neither policy, and the store-origin and authenticode-origin checks
    built on them are true. *)
Theorem trusted_chain_ignores_policy_status :
  IsMicrosoftTrustedChain (provider untrustedRoot) [leafCert] = true /\
  ~ chain_satisfies_policy (provider untrustedRoot) CERT_CHAIN_POLICY_MICROSOFT_ROOT
      [leafCert] (mkPolicyPara MICROSOFT_ROOT_CERT_CHAIN_POLICY_CHECK_APPLICATION_ROOT_FLAG) /\
  IsAuthenticodeTrustedChain (provider untrustedRoot) [leafCert] = true /\
  ~ chain_satisfies_policy (provider untrustedRoot) CERT_CHAIN_POLICY_AUTHENTICODE
      [leafCert] (mkPolicyPara 0) /\
  GetCertChainContext (provider untrustedRoot) p7s = Return [leafCert] /\
  IsStoreOrigin headers (provider untrustedRoot) p7s = Return true /\
  IsAuthenticodeOrigin (provider untrustedRoot) p7s = Return true.
Proof.
  repeat split; try reflexivity.
  - intros [_ Herr]. vm_compute in Herr. discriminate.
  - intros [_ Herr]. vm_compute in Herr. discriminate.
Qed.

(** ** Enhanced key usage *)

Section UsageFacts.

Variable H : AppxHeaders.
Variable W : WinCrypt.

Lemma count_positive (usage : CERT_ENHKEY_USAGE) :
  (Z.of_nat (List.length usage) >? 0) = negb (Nat.eqb (List.length usage) 0).
Proof.
  destruct usage as [| oid usage]; [reflexivity |].
  cbn [List.length Nat.eqb negb]. apply Z.gtb_lt. lia.
Qed.

Lemma queryUsage_absent (cert : PCCERT_CONTEXT) (flags : DWORD) :
  eku_absent W cert flags -> queryUsage W cert flags = Return (0, []).
Proof.
  unfold eku_absent, queryUsage. intros ->. now rewrite Z.eqb_refl.
Qed.

Lemma queryUsage_present (cert : PCCERT_CONTEXT) (flags cb : DWORD) (usage : CERT_ENHKEY_USAGE) :
  eku_present W cert flags cb usage -> queryUsage W cert flags = Return (cb, usage).
Proof.
  unfold eku_present, queryUsage. intros (-> & _ & ->). reflexivity.
Qed.

(** The store identifier is looked up by string equality. *)
Lemma store_oid_found (oids : list string) :
  existsb (fun oid => String.eqb oid (OID_WindowsStore H)) oids = true <->
  In (OID_WindowsStore H) oids.
Proof.
  rewrite existsb_exists. split.
  - intros (oid & Hin & Heq). apply String.eqb_eq in Heq. now subst.
  - intros Hin. exists (OID_WindowsStore H). split; [assumption | apply String.eqb_refl].
Qed.

End UsageFacts.

(** C5 (as amended).  [GetEnhancedKeyUsage] takes the identifiers from
    the extension whenever the extension query returned data (a size above
    zero), also when the extension lists no identifier, and turns to the
    property only when the extension query returned no data.  With the
    extension absent and the store identifier in the property, the
    classifier reports it present; with both absent the list is empty and
    both the classifier and the store-origin check return false. *)
Theorem GetEnhancedKeyUsage_precedence :
  forall (H : AppxHeaders) (W : WinCrypt) (cert : PCCERT_CONTEXT) (values : list string),
    (forall cb usage,
        eku_present W cert CERT_FIND_EXT_ONLY_ENHKEY_USAGE_FLAG cb usage ->
        (eku_absent W cert CERT_FIND_PROP_ONLY_ENHKEY_USAGE_FLAG \/
         exists pcb pusage, eku_present W cert CERT_FIND_PROP_ONLY_ENHKEY_USAGE_FLAG pcb pusage) ->
        GetEnhancedKeyUsage W cert values
        = Return (negb (Nat.eqb (List.length usage) 0), (values ++ usage)%list)) /\
    (forall pcb pusage,
        eku_absent W cert CERT_FIND_EXT_ONLY_ENHKEY_USAGE_FLAG ->
        eku_present W cert CERT_FIND_PROP_ONLY_ENHKEY_USAGE_FLAG pcb pusage ->
        GetEnhancedKeyUsage W cert values
        = Return (negb (Nat.eqb (List.length pusage) 0), (values ++ pusage)%list) /\
        forall buffer,
          GetCertContext W buffer = Return cert ->
          In (OID_WindowsStore H) pusage ->
          DoesSignatureCertContainStoreEKU H W buffer = Return true) /\
    (eku_absent W cert CERT_FIND_EXT_ONLY_ENHKEY_USAGE_FLAG ->
     eku_absent W cert CERT_FIND_PROP_ONLY_ENHKEY_USAGE_FLAG ->
     GetEnhancedKeyUsage W cert values = Return (false, values) /\
     forall buffer,
       GetCertContext W buffer = Return cert ->
       DoesSignatureCertContainStoreEKU H W buffer = Return false /\
       IsStoreOrigin H W buffer = Return false).
Proof.
  intros H W cert values. split; [| split].
  - intros cb usage Hext Hprop.
    unfold GetEnhancedKeyUsage, rbind.
    rewrite (queryUsage_present W cert _ cb usage Hext).
    assert (Hpos : (cb >? 0) = true) by (destruct Hext as (_ & Hcb & _); apply Z.gtb_lt; lia).
    destruct Hprop as [Habs | (pcb & pusage & Hpres)].
    + rewrite (queryUsage_absent W cert _ Habs). rewrite Hpos.
      now rewrite count_positive.
    + rewrite (queryUsage_present W cert _ pcb pusage Hpres). rewrite Hpos.
      now rewrite count_positive.
  - intros pcb pusage Hext Hprop.
    assert (Hget : forall vs, GetEnhancedKeyUsage W cert vs
                   = Return (negb (Nat.eqb (List.length pusage) 0), (vs ++ pusage)%list)).
    { intros vs. unfold GetEnhancedKeyUsage, rbind.
      rewrite (queryUsage_absent W cert _ Hext).
      rewrite (queryUsage_present W cert _ pcb pusage Hprop).
      assert (Hpos : (pcb >? 0) = true)
        by (destruct Hprop as (_ & Hcb & _); apply Z.gtb_lt; lia).
      cbn [Z.gtb Z.compare]. rewrite Hpos. now rewrite count_positive. }
    split; [apply Hget |].
    intros buffer Hcert Hin.
    unfold DoesSignatureCertContainStoreEKU, rbind. rewrite Hcert, Hget.
    cbn [List.app].
    destruct pusage as [| oid pusage]; [contradiction |].
    cbn [List.length Nat.eqb negb].
    f_equal. now apply store_oid_found.
  - intros Hext Hprop.
    assert (Hget : forall vs, GetEnhancedKeyUsage W cert vs = Return (false, vs)).
    { intros vs. unfold GetEnhancedKeyUsage, rbind.
      rewrite (queryUsage_absent W cert _ Hext), (queryUsage_absent W cert _ Hprop).
      reflexivity. }
    split; [apply Hget |].
    intros buffer Hcert.
    assert (Heku : DoesSignatureCertContainStoreEKU H W buffer = Return false).
    { unfold DoesSignatureCertContainStoreEKU, rbind. now rewrite Hcert, Hget. }
    split; [assumption |].
    unfold IsStoreOrigin, rbind. now rewrite Heku.
Qed.

Lemma GetEnhancedKeyUsage_precedence_witness :
  (* an extension without identifiers wins over the property *)
  GetEnhancedKeyUsage (provider emptyExtension) (Some leafCert) [] = Return (false, []) /\
  (* no extension: the property is read *)
  DoesSignatureCertContainStoreEKU headers (provider propertyOnly) p7s = Return true /\
  (* neither *)
  IsStoreOrigin headers (provider untrusted) p7s = Return false.
Proof.
  split; [| split].
  - apply (GetEnhancedKeyUsage_precedence headers (provider emptyExtension)
             (Some leafCert) []) with (cb := 16) (usage := []).
    + repeat split.
    + right. exists 32, [storeOid]. repeat split.
  - apply (GetEnhancedKeyUsage_precedence headers (provider propertyOnly)
             (Some leafCert) []) with (pcb := 32) (pusage := [storeOid]).
    + reflexivity.
    + repeat split.
    + reflexivity.
    + now left.
  - apply (GetEnhancedKeyUsage_precedence headers (provider untrusted)
             (Some leafCert) []); reflexivity.
Defined.

(** C5, refuted as stated: the extension-level EKU of the signer is
    there and lists nothing, the property-level EKU holds the store
    identifier.  The property is not consulted and the classifier answers
    false. *)
Lemma empty_extension_hides_property :
  GetCertContext (provider emptyExtension) p7s = Return (Some leafCert) /\
  eku_present (provider emptyExtension) (Some leafCert)
    CERT_FIND_EXT_ONLY_ENHKEY_USAGE_FLAG 16 [] /\
  eku_present (provider emptyExtension) (Some leafCert)
    CERT_FIND_PROP_ONLY_ENHKEY_USAGE_FLAG 32 [OID_WindowsStore headers] /\
  GetEnhancedKeyUsage (provider emptyExtension) (Some leafCert) [] = Return (false, []) /\
  DoesSignatureCertContainStoreEKU headers (provider emptyExtension) p7s = Return false /\
  DoesSignatureCertContainStoreEKU headers (provider emptyExtension) p7s <> Return true.
Proof.
  repeat split; try reflexivity. vm_compute. discriminate.
Qed.

(** ** Resolving the signer *)

Section SignerFacts.

Variable W : WinCrypt.

Lemma blob_eqb_eq (a b : CRYPT_DATA_BLOB) : blob_eqb a b = true <-> a = b.
Proof.
  unfold blob_eqb. destruct (list_eq_dec Byte.byte_eq_dec a b); split; congruence.
Qed.

Lemma same_identity_iff (issuer serial : CRYPT_DATA_BLOB) (c : CERT_CONTEXT) :
  same_identity issuer serial c = true <->
  Issuer (pCertInfo c) = issuer /\ SerialNumber (pCertInfo c) = serial.
Proof.
  unfold same_identity. rewrite andb_true_iff, !blob_eqb_eq. reflexivity.
Qed.

Lemma find_all_false {A} (f : A -> bool) (l : list A) :
  (forall x, In x l -> f x = false) -> find f l = None.
Proof.
  induction l as [| a l IH]; intros Hall; [reflexivity |].
  cbn [find]. rewrite (Hall a (or_introl eq_refl)).
  apply IH. intros x Hx. apply Hall. now right.
Qed.

(** The loop of [GetCertContext] stops at the first certificate it does
    not pass over, and leaves NULL when it passes over all. *)
Lemma enumEndEntity_spec (store : list CERT_CONTEXT) :
  match enumEndEntity W store with
  | Some c =>
    exists before after,
      store = (before ++ c :: after)%list /\
      Forall (fun x => passed_over W x = true) before /\
      passed_over W c = false
  | None => Forall (fun x => passed_over W x = true) store
  end.
Proof.
  induction store as [| c store IH]; [constructor |].
  cbn [enumEndEntity]. fold (passed_over W c).
  destruct (passed_over W c) eqn:Hc.
  - destruct (enumEndEntity W store) as [c' |].
    + destruct IH as (before & after & -> & Hbefore & Hc').
      exists (c :: before), after. repeat split; [constructor |]; assumption.
    + now constructor.
  - exists [], store. repeat split; [constructor | assumption].
Qed.

Lemma enumEndEntity_first (before after : list CERT_CONTEXT) (c : CERT_CONTEXT) :
  Forall (fun x => passed_over W x = true) before ->
  passed_over W c = false ->
  enumEndEntity W (before ++ c :: after) = Some c.
Proof.
  intros Hbefore Hc. induction Hbefore as [| x before Hx _ IH].
  - cbn [List.app enumEndEntity]. fold (passed_over W c). now rewrite Hc.
  - cbn [List.app enumEndEntity]. fold (passed_over W x). now rewrite Hx.
Qed.

Lemma IsCertificateSelfSigned_true (pContext : PCCERT_CONTEXT) (dwEncoding dwFlags : DWORD) :
  IsCertificateSelfSigned W pContext dwEncoding dwFlags = true ->
  exists c, pContext = Some c /\ dwFlags = 0 /\
            Issuer (pCertInfo c) = Subject (pCertInfo c) /\
            self_signature_verifies W c.
Proof.
  unfold IsCertificateSelfSigned.
  destruct pContext as [c |]; [| discriminate].
  destruct (Z.eqb_spec dwFlags 0) as [-> | _]; [| discriminate]. cbn [negb].
  unfold CertCompareCertificateName.
  destruct (blob_eqb (Issuer (pCertInfo c)) (Subject (pCertInfo c))) eqn:Hname;
    [| discriminate]. cbn [negb].
  destruct (CertVerifySubjectCertificateContext W c c CERT_STORE_SIGNATURE_FLAG)
    as [ret dwFlag] eqn:Hverify.
  destruct ret; [| discriminate]. cbn [negb orb].
  destruct (Z.eqb_spec (Z.land dwFlag CERT_STORE_SIGNATURE_FLAG) 0) as [Hbit | _];
    [| discriminate].
  intros _. exists c. repeat split; try reflexivity.
  - now apply blob_eqb_eq.
  - exists dwFlag. split; [exact Hverify | assumption].
Qed.

Lemma IsCertificateSelfSigned_unverified (c : CERT_CONTEXT) (dwEncoding dwFlags : DWORD) :
  ~ self_signature_verifies W c ->
  IsCertificateSelfSigned W (Some c) dwEncoding dwFlags = false.
Proof.
  intros Hnot.
  destruct (IsCertificateSelfSigned W (Some c) dwEncoding dwFlags) eqn:E; [| reflexivity].
  apply IsCertificateSelfSigned_true in E.
  destruct E as (c' & Hc & _ & _ & Hver). inversion Hc; subst. contradiction.
Qed.

End SignerFacts.

(** C6.  For a blob whose reported content type is PKCS#7, signed or
    unsigned, [GetCertContext] walks the store in enumeration order,
    passes over every certificate that is self-signed or a CA and returns
    the first that is neither; it returns NULL when every certificate was
    passed over.  A certificate it returns is therefore neither a CA nor
    self-signed, however many certificates the store holds. *)
Theorem GetCertContext_pkcs7 :
  forall (W : WinCrypt) (buffer : CRYPT_DATA_BLOB) (q : QUERY_OBJECT),
    CryptQueryObject W CERT_QUERY_OBJECT_BLOB buffer
      (Z.lor (Z.lor CERT_QUERY_CONTENT_FLAG_CERT CERT_QUERY_CONTENT_FLAG_PKCS7_SIGNED)
             CERT_QUERY_CONTENT_FLAG_PKCS7_UNSIGNED)
      CERT_QUERY_FORMAT_FLAG_ALL = Some q ->
    dwContentType q = CERT_QUERY_CONTENT_PKCS7_SIGNED \/
    dwContentType q = CERT_QUERY_CONTENT_PKCS7_UNSIGNED ->
    exists r,
      GetCertContext W buffer = Return r /\
      match r with
      | Some c =>
        (exists before after,
            hCertStore q = (before ++ c :: after)%list /\
            Forall (fun x => IsCertificateSelfSigned W (Some x) (dwCertEncodingType x) 0 = true
                             \/ IsCACert W x = true) before) /\
        IsCertificateSelfSigned W (Some c) (dwCertEncodingType c) 0 = false /\
        IsCACert W c = false
      | None =>
        Forall (fun x => IsCertificateSelfSigned W (Some x) (dwCertEncodingType x) 0 = true
                         \/ IsCACert W x = true) (hCertStore q)
      end.
Proof.
  intros W buffer q Hq Htype.
  exists (enumEndEntity W (hCertStore q)). split.
  - unfold GetCertContext. rewrite Hq.
    assert (Hne : (dwContentType q =? CERT_QUERY_CONTENT_CERT) = false).
    { apply Z.eqb_neq. destruct Htype as [-> | ->]; discriminate. }
    now rewrite Hne.
  - pose proof (enumEndEntity_spec W (hCertStore q)) as Hspec.
    destruct (enumEndEntity W (hCertStore q)) as [c |].
    + destruct Hspec as (before & after & Hstore & Hbefore & Hc).
      unfold passed_over in Hc. apply orb_false_iff in Hc. destruct Hc as [Hself Hca].
      repeat split; try assumption.
      exists before, after. split; [assumption |].
      eapply Forall_impl; [| exact Hbefore].
      intros x Hx. unfold passed_over in Hx. now apply orb_true_iff in Hx.
    + eapply Forall_impl; [| exact Hspec].
      intros x Hx. unfold passed_over in Hx. now apply orb_true_iff in Hx.
Qed.

(** The root and the issuing CA come first and are passed over; the
    publisher's certificate is returned. *)
Lemma GetCertContext_pkcs7_witness :
  exists r,
    GetCertContext (provider storeSigned) p7s = Return r /\
    match r with
    | Some c =>
      (exists before after,
          [rootCert; caCert; leafCert] = (before ++ c :: after)%list /\
          Forall (fun x => IsCertificateSelfSigned (provider storeSigned) (Some x)
                             (dwCertEncodingType x) 0 = true
                           \/ IsCACert (provider storeSigned) x = true) before) /\
      IsCertificateSelfSigned (provider storeSigned) (Some c) (dwCertEncodingType c) 0 = false /\
      IsCACert (provider storeSigned) c = false
    | None =>
      Forall (fun x => IsCertificateSelfSigned (provider storeSigned) (Some x)
                         (dwCertEncodingType x) 0 = true
                       \/ IsCACert (provider storeSigned) x = true)
             [rootCert; caCert; leafCert]
    end.
Proof.
  apply (GetCertContext_pkcs7 (provider storeSigned) p7s
           (mkQuery CERT_QUERY_CONTENT_PKCS7_SIGNED [rootCert; caCert; leafCert] 1)).
  - reflexivity.
  - left. reflexivity.
Defined.

Example GetCertContext_storeSigned :
  GetCertContext (provider storeSigned) p7s = Return (Some leafCert).
Proof. reflexivity. Qed.

(** C7.  [GetCertChainContext] finds the signer by the issuer and the
    serial number of the signer info taken from the signed message: a
    chain it returns was built for a certificate of the store whose
    issuer and serial number are those of the signer info.  It throws
    AppxSignatureInvalid when the signer info cannot be read, when its
    reported size is zero or not below STRSAFE_MAX_CCH, and when no
    certificate of the store has that issuer and serial number. *)
Theorem GetCertChainContext_signer :
  forall (W : WinCrypt) (buffer : CRYPT_DATA_BLOB) (q : QUERY_OBJECT),
    CryptQueryObject W CERT_QUERY_OBJECT_BLOB buffer
      CERT_QUERY_CONTENT_FLAG_PKCS7_SIGNED CERT_QUERY_FORMAT_FLAG_BINARY = Some q ->
    (* a returned chain belongs to the certificate the signer info names *)
    (forall chain,
        GetCertChainContext W buffer = Return chain ->
        exists signerInfo cert,
          signer_resolved W buffer q signerInfo cert /\
          In cert (hCertStore q) /\
          Issuer (pCertInfo cert) = si_Issuer signerInfo /\
          SerialNumber (pCertInfo cert) = si_SerialNumber signerInfo /\
          CertGetCertificateChain W HCCE_LOCAL_MACHINE cert (hCertStore q)
            (mkChainPara USAGE_MATCH_TYPE_AND) CERT_CHAIN_CACHE_ONLY_URL_RETRIEVAL
          = Some chain) /\
    (* signer info absent *)
    (CryptMsgGetParam_size W (hMsg q) CMSG_SIGNER_INFO_PARAM 0 = None ->
     GetCertChainContext W buffer = Throw AppxSignatureInvalid) /\
    (* size zero or implausibly large *)
    (forall signerInfoSize,
        CryptMsgGetParam_size W (hMsg q) CMSG_SIGNER_INFO_PARAM 0 = Some signerInfoSize ->
        signerInfoSize = 0 \/ STRSAFE_MAX_CCH <= signerInfoSize ->
        GetCertChainContext W buffer = Throw AppxSignatureInvalid) /\
    (* signer info not delivered *)
    (forall signerInfoSize,
        CryptMsgGetParam_size W (hMsg q) CMSG_SIGNER_INFO_PARAM 0 = Some signerInfoSize ->
        CryptMsgGetParam W (hMsg q) CMSG_SIGNER_INFO_PARAM 0 signerInfoSize = None ->
        GetCertChainContext W buffer = Throw AppxSignatureInvalid) /\
    (* no certificate of that identity in the store *)
    (forall signerInfoSize signerInfo,
        CryptMsgGetParam_size W (hMsg q) CMSG_SIGNER_INFO_PARAM 0 = Some signerInfoSize ->
        CryptMsgGetParam W (hMsg q) CMSG_SIGNER_INFO_PARAM 0 signerInfoSize = Some signerInfo ->
        (forall c, In c (hCertStore q) ->
                   ~ (Issuer (pCertInfo c) = si_Issuer signerInfo /\
                      SerialNumber (pCertInfo c) = si_SerialNumber signerInfo)) ->
        GetCertChainContext W buffer = Throw AppxSignatureInvalid).
Proof.
  intros W buffer q Hq. split; [| split; [| split; [| split]]].
  - intros chain. unfold GetCertChainContext. rewrite Hq.
    destruct (CryptMsgGetParam_size W (hMsg q) CMSG_SIGNER_INFO_PARAM 0)
      as [size |] eqn:Hsize; [| discriminate].
    destruct ((size =? 0) || (size >=? STRSAFE_MAX_CCH)) eqn:Hguard; [discriminate |].
    destruct (CryptMsgGetParam W (hMsg q) CMSG_SIGNER_INFO_PARAM 0 size)
      as [signerInfo |] eqn:Hinfo; [| discriminate].
    destruct (CertGetSubjectCertificateFromStore (hCertStore q)
                (Z.lor X509_ASN_ENCODING PKCS_7_ASN_ENCODING)
                (si_Issuer signerInfo) (si_SerialNumber signerInfo))
      as [cert |] eqn:Hcert; [| discriminate].
    destruct (CertGetCertificateChain W HCCE_LOCAL_MACHINE cert (hCertStore q)
                (mkChainPara USAGE_MATCH_TYPE_AND) CERT_CHAIN_CACHE_ONLY_URL_RETRIEVAL)
      as [chain' |] eqn:Hchain; [| discriminate].
    intros Heq. inversion Heq; subst chain'.
    apply orb_false_iff in Hguard. destruct Hguard as [Hzero Hmax].
    apply Z.eqb_neq in Hzero.
    assert (Hlt : size < STRSAFE_MAX_CCH)
      by (destruct (Z.geb_spec size STRSAFE_MAX_CCH); [discriminate | assumption]).
    pose proof Hcert as Hfound.
    unfold CertGetSubjectCertificateFromStore in Hfound.
    apply find_some in Hfound. destruct Hfound as [Hin Hid].
    apply same_identity_iff in Hid. destruct Hid as [Hissuer Hserial].
    exists signerInfo, cert.
    split; [| repeat split; assumption].
    split; [assumption | split; [| assumption]].
    exists size. repeat split; assumption.
  - intros Hsize. unfold GetCertChainContext. now rewrite Hq, Hsize.
  - intros size Hsize Hbad. unfold GetCertChainContext. rewrite Hq, Hsize.
    assert (Hguard : (size =? 0) || (size >=? STRSAFE_MAX_CCH) = true).
    { apply orb_true_iff. destruct Hbad as [-> | Hbig]; [now left | right].
      destruct (Z.geb_spec size STRSAFE_MAX_CCH); [reflexivity | lia]. }
    now rewrite Hguard.
  - intros size Hsize Hinfo. unfold GetCertChainContext. rewrite Hq, Hsize.
    destruct ((size =? 0) || (size >=? STRSAFE_MAX_CCH)); [reflexivity |].
    now rewrite Hinfo.
  - intros size signerInfo Hsize Hinfo Hnone.
    unfold GetCertChainContext. rewrite Hq, Hsize.
    destruct ((size =? 0) || (size >=? STRSAFE_MAX_CCH)); [reflexivity |].
    rewrite Hinfo.
    unfold CertGetSubjectCertificateFromStore.
    rewrite find_all_false; [reflexivity |].
    intros c Hin. destruct (same_identity _ _ c) eqn:Hid; [| reflexivity].
    apply same_identity_iff in Hid. exfalso. exact (Hnone c Hin Hid).
Qed.

(** A bundle signed by the publisher's certificate: the chain is built
    for it; a bundle whose signer info carries another serial number:
    thrown. *)
Lemma GetCertChainContext_signer_witness :
  (exists signerInfo cert,
      signer_resolved (provider storeSigned) p7s
        (mkQuery CERT_QUERY_CONTENT_PKCS7_SIGNED [rootCert; caCert; leafCert] 1)
        signerInfo cert /\
      In cert [rootCert; caCert; leafCert] /\
      Issuer (pCertInfo cert) = si_Issuer signerInfo /\
      SerialNumber (pCertInfo cert) = si_SerialNumber signerInfo /\
      CertGetCertificateChain (provider storeSigned) HCCE_LOCAL_MACHINE cert
        [rootCert; caCert; leafCert]
        (mkChainPara USAGE_MATCH_TYPE_AND) CERT_CHAIN_CACHE_ONLY_URL_RETRIEVAL
      = Some [leafCert]) /\
  GetCertChainContext (provider strangerSigner) p7s = Throw AppxSignatureInvalid.
Proof.
  split.
  - apply (GetCertChainContext_signer (provider storeSigned) p7s
             (mkQuery CERT_QUERY_CONTENT_PKCS7_SIGNED [rootCert; caCert; leafCert] 1)
             eq_refl).
    reflexivity.
  - apply (GetCertChainContext_signer (provider strangerSigner) p7s
             (mkQuery CERT_QUERY_CONTENT_PKCS7_SIGNED [rootCert; caCert; leafCert] 1)
             eq_refl)
      with (signerInfoSize := 64)
           (signerInfo := mkSignerInfo (bytes_of "CN=Issuing CA") [x08]).
    + reflexivity.
    + reflexivity.
    + intros c Hin [_ Hserial].
      cbn [hCertStore In] in Hin.
      destruct Hin as [<- | [<- | [<- | []]]]; discriminate Hserial.
Defined.

(** C10.  [IsCertificateSelfSigned] answers true only for a certificate
    whose issuer name equals its subject name and whose signature
    verifies under its own public key.  A certificate with issuer equal
    to subject whose signature does not verify is not self-signed for the
    code, so that, not being a CA, it is what [GetCertContext] returns
    when every certificate enumerated before it is passed over. *)
Theorem IsCertificateSelfSigned_requires_signature :
  forall (W : WinCrypt) (c : CERT_CONTEXT),
    (IsCertificateSelfSigned W (Some c) (dwCertEncodingType c) 0 = true ->
     Issuer (pCertInfo c) = Subject (pCertInfo c) /\ self_signature_verifies W c) /\
    (Issuer (pCertInfo c) = Subject (pCertInfo c) ->
     ~ self_signature_verifies W c ->
     IsCertificateSelfSigned W (Some c) (dwCertEncodingType c) 0 = false /\
     forall buffer q before after,
       CryptQueryObject W CERT_QUERY_OBJECT_BLOB buffer
         (Z.lor (Z.lor CERT_QUERY_CONTENT_FLAG_CERT CERT_QUERY_CONTENT_FLAG_PKCS7_SIGNED)
                CERT_QUERY_CONTENT_FLAG_PKCS7_UNSIGNED)
         CERT_QUERY_FORMAT_FLAG_ALL = Some q ->
       dwContentType q <> CERT_QUERY_CONTENT_CERT ->
       hCertStore q = (before ++ c :: after)%list ->
       Forall (fun x => passed_over W x = true) before ->
       IsCACert W c = false ->
       GetCertContext W buffer = Return (Some c)).
Proof.
  intros W c. split.
  - intros Htrue. apply IsCertificateSelfSigned_true in Htrue.
    destruct Htrue as (c' & Hc & _ & Hname & Hver). inversion Hc; subst c'.
    split; assumption.
  - intros Hname Hnot.
    pose proof (IsCertificateSelfSigned_unverified W c (dwCertEncodingType c) 0 Hnot)
      as Hself.
    split; [assumption |].
    intros buffer q before after Hq Htype Hstore Hbefore Hca.
    unfold GetCertContext. rewrite Hq.
    apply Z.eqb_neq in Htype. rewrite Htype, Hstore.
    f_equal. apply enumEndEntity_first; [assumption |].
    unfold passed_over. now rewrite Hself, Hca.
Qed.

Lemma selfNamed_not_verified : ~ self_signature_verifies (provider selfNamedFirst) selfNamedCert.
Proof.
  intros (dwFlag & Hverify & Hbit).
  vm_compute in Hverify. inversion Hverify; subst dwFlag. discriminate Hbit.
Qed.

(** The bundle carries the root, then the self-named certificate, then
    the publisher's: the self-named one is returned. *)
Lemma IsCertificateSelfSigned_requires_signature_witness :
  Issuer (pCertInfo selfNamedCert) = Subject (pCertInfo selfNamedCert) /\
  IsCertificateSelfSigned (provider selfNamedFirst) (Some selfNamedCert) 1 0 = false /\
  GetCertContext (provider selfNamedFirst) p7s = Return (Some selfNamedCert).
Proof.
  destruct (IsCertificateSelfSigned_requires_signature (provider selfNamedFirst)
              selfNamedCert) as [_ Hsecond].
  destruct (Hsecond eq_refl selfNamed_not_verified) as [Hself Hget].
  split; [reflexivity | split; [exact Hself |]].
  apply (Hget p7s
           (mkQuery CERT_QUERY_CONTENT_PKCS7_SIGNED [rootCert; selfNamedCert; leafCert] 1)
           [rootCert] [leafCert]).
  - reflexivity.
  - discriminate.
  - reflexivity.
  - constructor; [reflexivity | constructor].
  - reflexivity.
Defined.

(** * Further properties of the code *)

(** ** The container stage, call by call *)

Section ContainerFacts.

Variable H : AppxHeaders.
Variable S : Type.
Variable Digests : Type.
Variable stream : IStream S.

(** Lines 435-449 as the four stream calls and the tests between them. *)
Lemma ReadP7x_calls (s : S) (d : Digests) :
  ReadP7x H stream (s, d) =
  let '(hr1, n, s1) := Seek stream 0 END s in
  if FAILED hr1 then (Throw (HResultError hr1), (s1, d))
  else if (n <=? 4) || (n >? 2097152) then (Throw AppxSignatureInvalid, (s1, d))
  else
    let '(hr2, p, s2) := Seek stream 0 START s1 in
    if FAILED hr2 then (Throw (HResultError hr2), (s2, d))
    else
      let '(hr3, hdr, s3) := Read stream 4 s2 in
      if FAILED hr3 then (Throw (HResultError hr3), (s3, d))
      else if negb (dword_of_bytes (firstn 4 hdr) =? P7X_FILE_ID H)
      then (Throw AppxSignatureInvalid, (s3, d))
      else
        let '(hr4, buffer, s4) := Read stream (wrap32 (LowPart p - 4)) s3 in
        if FAILED hr4 then (Throw (HResultError hr4), (s4, d))
        else if negb (Z.of_nat (List.length buffer) =? wrap32 (LowPart p - 4))
        then (Throw AppxSignatureInvalid, (s4, d))
        else (Return buffer, (s4, d)).
Proof.
  unfold ReadP7x, bind, stream_Seek, stream_Read, ThrowHrIfFailed, ThrowErrorIf,
    throw, ret, sizeof_P7X_FILE_ID, sizeof_fileID.
  replace (Z.shiftl 2 20) with 2097152 by reflexivity.
  destruct (Seek stream 0 END s) as [[hr1 n] s1].
  destruct (FAILED hr1); [reflexivity |].
  destruct ((n <=? 4) || (n >? 2097152)); [reflexivity |].
  destruct (Seek stream 0 START s1) as [[hr2 p] s2].
  destruct (FAILED hr2); [reflexivity |].
  destruct (Read stream 4 s2) as [[hr3 hdr] s3].
  destruct (FAILED hr3); [reflexivity |].
  destruct (negb (dword_of_bytes (firstn 4 hdr) =? P7X_FILE_ID H)); [reflexivity |].
  destruct (Read stream (wrap32 (LowPart p - 4)) s3) as [[hr4 buffer] s4].
  destruct (FAILED hr4); [reflexivity |].
  destruct (negb (Z.of_nat (List.length buffer) =? wrap32 (LowPart p - 4))); reflexivity.
Qed.




End ContainerFacts.

(** X1.  When the stream passes the length test and rewinds, and the
    four header bytes it delivers are not those of P7X_FILE_ID,
    [Validate] throws AppxSignatureInvalid right after the header read:
    the stream is as that read left it (the blob is not read) and the
    provider is not consulted. *)
Theorem Validate_rejects_bad_magic :
  forall (H : AppxHeaders) (S Digests : Type) (stream : IStream S) (option : Z)
         (s s1 s2 s3 : S) (d : Digests) (hr1 hr2 hr3 : HRESULT)
         (n p : ULARGE_INTEGER) (hdr : list byte),
    Z.land option (APPX_VALIDATION_OPTION_SKIPSIGNATURE H) = 0 ->
    Seek stream 0 END s = (hr1, n, s1) -> FAILED hr1 = false ->
    4 < n <= 2097152 ->
    Seek stream 0 START s1 = (hr2, p, s2) -> FAILED hr2 = false ->
    Read stream 4 s2 = (hr3, hdr, s3) -> FAILED hr3 = false ->
    dword_of_bytes (firstn 4 hdr) <> P7X_FILE_ID H ->
    forall W : WinCrypt,
      Validate H W stream option (s, d) = (Throw AppxSignatureInvalid, (s3, d)).
Proof.
  intros H S Digests stream option s s1 s2 s3 d hr1 hr2 hr3 n p hdr
         Hskip Hend F1 Hn Hstart F2 Hread F3 Hmagic W.
  rewrite Validate_noskip by assumption.
  rewrite ReadP7x_calls, Hend, F1.
  assert (Hlen : (n <=? 4) || (n >? 2097152) = false).
  { apply orb_false_iff. split.
    - apply Z.leb_gt. lia.
    - destruct (Z.gtb_spec n 2097152); [lia | reflexivity]. }
  rewrite Hlen, Hstart, F2, Hread, F3.
  apply Z.eqb_neq in Hmagic. rewrite Hmagic. reflexivity.
Qed.

(** Six bytes that do not start with "PKCX". *)
Lemma Validate_rejects_bad_magic_witness :
  Validate headers (provider storeSigned) memStream 0
    (mkMem [x50; x4b; x03; x04; x14; x00] 0, tt)
  = (Throw AppxSignatureInvalid, (mkMem [x50; x4b; x03; x04; x14; x00] 4, tt)).
Proof.
  apply (Validate_rejects_bad_magic headers MemStream unit memStream 0
           (mkMem [x50; x4b; x03; x04; x14; x00] 0)
           (mkMem [x50; x4b; x03; x04; x14; x00] 6)
           (mkMem [x50; x4b; x03; x04; x14; x00] 0)
           (mkMem [x50; x4b; x03; x04; x14; x00] 4) tt S_OK S_OK S_OK 6 0
           [x50; x4b; x03; x04]); try reflexivity.
  - lia.
  - vm_compute. discriminate.
Defined.






(** X5.  A blob the container stage delivers passed every test of the
    stage: the stream reported a length above 4 and of at most 2,097,152,
    the header bytes are those of P7X_FILE_ID, and the blob has exactly
    the [streamSize] bytes line 445 computes from what the rewind
    reported, whatever the length was.  When the rewind reports position
    0 that is 4,294,967,292 bytes. *)
Theorem ReadP7x_delivers :
  forall (H : AppxHeaders) (S Digests : Type) (stream : IStream S)
         (s : S) (d : Digests) (st' : VState S Digests) (buffer : list byte),
    ReadP7x H stream (s, d) = (Return buffer, st') ->
    exists hr1 n s1 hr2 p s2 hr3 hdr s3 hr4 s4,
      Seek stream 0 END s = (hr1, n, s1) /\
      Seek stream 0 START s1 = (hr2, p, s2) /\
      Read stream 4 s2 = (hr3, hdr, s3) /\
      Read stream (wrap32 (LowPart p - 4)) s3 = (hr4, buffer, s4) /\
      0 <= hr1 /\ 0 <= hr2 /\ 0 <= hr3 /\ 0 <= hr4 /\
      4 < n <= 2097152 /\
      dword_of_bytes (firstn 4 hdr) = P7X_FILE_ID H /\
      Z.of_nat (List.length buffer) = wrap32 (LowPart p - 4) /\
      (p = 0 -> Z.of_nat (List.length buffer) = 4294967292) /\
      st' = (s4, d).
Proof.
  intros H S Digests stream s d st' buffer.
  rewrite ReadP7x_calls.
  destruct (Seek stream 0 END s) as [[hr1 n] s1] eqn:Hend.
  destruct (FAILED hr1) eqn:F1; [discriminate |].
  destruct ((n <=? 4) || (n >? 2097152)) eqn:Hlen; [discriminate |].
  destruct (Seek stream 0 START s1) as [[hr2 p] s2] eqn:Hstart.
  destruct (FAILED hr2) eqn:F2; [discriminate |].
  destruct (Read stream 4 s2) as [[hr3 hdr] s3] eqn:Hhdr.
  destruct (FAILED hr3) eqn:F3; [discriminate |].
  destruct (Z.eqb_spec (dword_of_bytes (firstn 4 hdr)) (P7X_FILE_ID H)) as [Hmagic | _];
    [| discriminate]. cbn [negb].
  destruct (Read stream (wrap32 (LowPart p - 4)) s3) as [[hr4 buffer'] s4] eqn:Hblob.
  destruct (FAILED hr4) eqn:F4; [discriminate |].
  destruct (Z.eqb_spec (Z.of_nat (List.length buffer')) (wrap32 (LowPart p - 4)))
    as [Hsize | _]; [| discriminate]. cbn [negb].
  intros Heq. inversion Heq; subst buffer' st'.
  apply orb_false_iff in Hlen. destruct Hlen as [Hmin Hmax].
  apply Z.leb_gt in Hmin.
  assert (Hmax' : n <= 2097152)
    by (destruct (Z.gtb_spec n 2097152); [discriminate | lia]).
  unfold FAILED in F1, F2, F3, F4.
  apply Z.ltb_ge in F1, F2, F3, F4.
  exists hr1, n, s1, hr2, p, s2, hr3, hdr, s3, hr4, s4.
  repeat split; try reflexivity; try assumption; try lia.
  intros ->. exact Hsize.
Qed.

Lemma ReadP7x_delivers_witness :
  exists hr1 n s1 hr2 p s2 hr3 hdr s3 hr4 s4,
    Seek scriptStream 0 END p7xScript = (hr1, n, s1) /\
    Seek scriptStream 0 START s1 = (hr2, p, s2) /\
    Read scriptStream 4 s2 = (hr3, hdr, s3) /\
    Read scriptStream (wrap32 (LowPart p - 4)) s3 = (hr4, p7s, s4) /\
    0 <= hr1 /\ 0 <= hr2 /\ 0 <= hr3 /\ 0 <= hr4 /\
    4 < n <= 2097152 /\
    dword_of_bytes (firstn 4 hdr) = P7X_FILE_ID headers /\
    Z.of_nat (List.length p7s) = wrap32 (LowPart p - 4) /\
    (p = 0 -> Z.of_nat (List.length p7s) = 4294967292) /\
    (mkScript [] [], tt) = (s4, tt).
Proof.
  apply (ReadP7x_delivers headers Script unit scriptStream p7xScript tt
           (mkScript [] [], tt) p7s).
  reflexivity.
Defined.

(** X6.  [Validate] returns true only for a blob the container stage
    delivered and for whose signer a certificate chain was built, also
    when AllowUnknownOrigin is set: the bit stands in for the verdict of
    the two policies, not for the chain. *)
Theorem Validate_accepts_only_with_chain :
  forall (H : AppxHeaders) (W : WinCrypt) (S Digests : Type) (stream : IStream S)
         (option : Z) (st : VState S Digests),
    fst (Validate H W stream option st) = Return true ->
    Z.land option (APPX_VALIDATION_OPTION_SKIPSIGNATURE H) = 0 /\
    exists buffer st' chain,
      ReadP7x H stream st = (Return buffer, st') /\
      GetCertChainContext W buffer = Return chain /\
      (IsMicrosoftTrustedChain W chain = true \/
       IsAuthenticodeTrustedChain W chain = true \/
       Z.land option (APPX_VALIDATION_OPTION_ALLOWUNKNOWNORIGIN H) <> 0).
Proof.
  intros H W S Digests stream option st Hacc.
  destruct (Z.eq_dec (Z.land option (APPX_VALIDATION_OPTION_SKIPSIGNATURE H)) 0) as [E | E];
    [| rewrite Validate_skip in Hacc by assumption; discriminate].
  split; [assumption |].
  rewrite Validate_noskip in Hacc by assumption.
  destruct (ReadP7x H stream st) as [[buffer | e] st'] eqn:Hread; [| discriminate].
  exists buffer, st'.
  destruct (OriginCondition H W option buffer) as [[|] | e] eqn:Hcond; try discriminate.
  clear Hacc. unfold OriginCondition, rbind in Hcond.
  destruct (IsStoreOrigin H W buffer) as [so | e] eqn:Hso; [| discriminate].
  destruct so.
  - unfold IsStoreOrigin, rbind in Hso.
    destruct (DoesSignatureCertContainStoreEKU H W buffer) as [[|] | e]; try discriminate.
    destruct (GetCertChainContext W buffer) as [chain | e] eqn:Hchain; [| discriminate].
    exists chain. repeat split. left. congruence.
  - unfold IsAuthenticodeOrigin, rbind in Hcond.
    destruct (GetCertChainContext W buffer) as [chain | e] eqn:Hchain; [| discriminate].
    exists chain. repeat split.
    destruct (IsAuthenticodeTrustedChain W chain); [now right; left |].
    right; right. inversion Hcond as [Hbit].
    apply negb_true_iff in Hbit. now apply Z.eqb_neq.
Qed.

(** The store-signed bundle behind the scripted stream is accepted. *)
Lemma Validate_accepts_only_with_chain_witness :
  Z.land 0 (APPX_VALIDATION_OPTION_SKIPSIGNATURE headers) = 0 /\
  exists buffer st' chain,
    ReadP7x headers scriptStream (p7xScript, tt) = (Return buffer, st') /\
    GetCertChainContext (provider storeSigned) buffer = Return chain /\
    (IsMicrosoftTrustedChain (provider storeSigned) chain = true \/
     IsAuthenticodeTrustedChain (provider storeSigned) chain = true \/
     Z.land 0 (APPX_VALIDATION_OPTION_ALLOWUNKNOWNORIGIN headers) <> 0).
Proof.
  apply (Validate_accepts_only_with_chain headers (provider storeSigned) Script unit
           scriptStream 0 (p7xScript, tt)).
  reflexivity.
Defined.

(** ** Enhanced key usage, call by call *)

Section UsageCalls.

Variable H : AppxHeaders.
Variable W : WinCrypt.

Lemma queryUsage_return (cert : PCCERT_CONTEXT) (flags cb : DWORD) (usage : CERT_ENHKEY_USAGE) :
  queryUsage W cert flags = Return (cb, usage) ->
  usage = [] \/
  (CertGetEnhancedKeyUsage_size W cert flags = Ok cb /\
   CertGetEnhancedKeyUsage W cert flags cb = Ok usage).
Proof.
  unfold queryUsage.
  destruct (CertGetEnhancedKeyUsage_size W cert flags) as [cb' | e] eqn:Hsize.
  - destruct (CertGetEnhancedKeyUsage W cert flags cb') as [usage' | e] eqn:Hdata.
    + intros Heq. inversion Heq; subst. right. now split.
    + destruct (negb (e =? CRYPT_E_NOT_FOUND)); [discriminate |].
      intros Heq. inversion Heq. now left.
  - destruct (negb (e =? CRYPT_E_NOT_FOUND)); [discriminate |].
    intros Heq. inversion Heq. now left.
Qed.

Lemma queryUsage_size_error (cert : PCCERT_CONTEXT) (flags e : DWORD) :
  CertGetEnhancedKeyUsage_size W cert flags = Fail e ->
  e <> CRYPT_E_NOT_FOUND ->
  queryUsage W cert flags = Throw AppxSignatureInvalid.
Proof.
  intros Hsize Hne. unfold queryUsage. rewrite Hsize.
  apply Z.eqb_neq in Hne. now rewrite Hne.
Qed.

Lemma queryUsage_data_error (cert : PCCERT_CONTEXT) (flags cb e : DWORD) :
  CertGetEnhancedKeyUsage_size W cert flags = Ok cb ->
  CertGetEnhancedKeyUsage W cert flags cb = Fail e ->
  e <> CRYPT_E_NOT_FOUND ->
  queryUsage W cert flags = Throw AppxSignatureInvalid.
Proof.
  intros Hsize Hdata Hne. unfold queryUsage. rewrite Hsize, Hdata.
  apply Z.eqb_neq in Hne. now rewrite Hne.
Qed.

Lemma nonempty_count (usage : CERT_ENHKEY_USAGE) :
  (Z.of_nat (List.length usage) >? 0) = true <-> usage <> [].
Proof.
  destruct usage as [| oid usage]; split; try discriminate; try congruence.
  intros _. cbn [List.length]. apply Z.gtb_lt. lia.
Qed.

(** What a returning [GetEnhancedKeyUsage] hands back. *)
Lemma GetEnhancedKeyUsage_return (cert : PCCERT_CONTEXT) (values out : list string) (b : bool) :
  GetEnhancedKeyUsage W cert values = Return (b, out) ->
  exists added,
    out = (values ++ added)%list /\
    (b = true <-> added <> []) /\
    (added = [] \/
     exists flags cb,
       (flags = CERT_FIND_EXT_ONLY_ENHKEY_USAGE_FLAG \/
        flags = CERT_FIND_PROP_ONLY_ENHKEY_USAGE_FLAG) /\
       CertGetEnhancedKeyUsage W cert flags cb = Ok added).
Proof.
  unfold GetEnhancedKeyUsage, rbind.
  destruct (queryUsage W cert CERT_FIND_EXT_ONLY_ENHKEY_USAGE_FLAG)
    as [[ecb eusage] | e] eqn:Hext; [| discriminate].
  destruct (queryUsage W cert CERT_FIND_PROP_ONLY_ENHKEY_USAGE_FLAG)
    as [[pcb pusage] | e] eqn:Hprop; [| discriminate].
  destruct (ecb >? 0).
  - intros Heq. inversion Heq; subst. exists eusage.
    split; [reflexivity | split; [apply nonempty_count |]].
    destruct (queryUsage_return cert _ ecb eusage Hext) as [-> | [_ Hdata]]; [now left |].
    right. exists CERT_FIND_EXT_ONLY_ENHKEY_USAGE_FLAG, ecb. split; [now left | assumption].
  - destruct (pcb >? 0).
    + intros Heq. inversion Heq; subst. exists pusage.
      split; [reflexivity | split; [apply nonempty_count |]].
      destruct (queryUsage_return cert _ pcb pusage Hprop) as [-> | [_ Hdata]]; [now left |].
      right. exists CERT_FIND_PROP_ONLY_ENHKEY_USAGE_FLAG, pcb. split; [now right | assumption].
    + intros Heq. inversion Heq; subst. exists [].
      split; [now rewrite app_nil_r | split; [| now left]].
      split; [discriminate | congruence].
Qed.

End UsageCalls.

(** X7.  A returning [GetEnhancedKeyUsage] only appends: the vector
    comes back as the one passed in followed by the identifiers added, the
    result is true exactly when at least one was added, and what was added
    is a list the API delivered for the certificate, from the extension or
    from the property; nothing is made up. *)
Theorem GetEnhancedKeyUsage_appends :
  forall (W : WinCrypt) (cert : PCCERT_CONTEXT) (values out : list string) (b : bool),
    GetEnhancedKeyUsage W cert values = Return (b, out) ->
    exists added,
      out = (values ++ added)%list /\
      (b = true <-> added <> []) /\
      (added = [] \/
       exists flags cb,
         (flags = CERT_FIND_EXT_ONLY_ENHKEY_USAGE_FLAG \/
          flags = CERT_FIND_PROP_ONLY_ENHKEY_USAGE_FLAG) /\
         CertGetEnhancedKeyUsage W cert flags cb = Ok added).
Proof.
  intros W cert values out b. apply GetEnhancedKeyUsage_return.
Qed.

Lemma GetEnhancedKeyUsage_appends_witness :
  exists added,
    ["1.2.3"%string; codeSigningOid; storeOid] = (["1.2.3"%string] ++ added)%list /\
    (true = true <-> added <> []) /\
    (added = [] \/
     exists flags cb,
       (flags = CERT_FIND_EXT_ONLY_ENHKEY_USAGE_FLAG \/
        flags = CERT_FIND_PROP_ONLY_ENHKEY_USAGE_FLAG) /\
       CertGetEnhancedKeyUsage (provider storeSigned) (Some leafCert) flags cb = Ok added).
Proof.
  apply (GetEnhancedKeyUsage_appends (provider storeSigned) (Some leafCert)
           ["1.2.3"%string] ["1.2.3"%string; codeSigningOid; storeOid] true).
  reflexivity.
Defined.

(** X8.  A failure of the EKU API with a code other than
    CRYPT_E_NOT_FOUND makes [GetEnhancedKeyUsage] throw
    AppxSignatureInvalid, in the size call or in the data call, and for
    the property also when the extension query had returned its list: the
    property is always queried. *)
Theorem GetEnhancedKeyUsage_api_failure :
  forall (W : WinCrypt) (cert : PCCERT_CONTEXT) (values : list string) (e : DWORD),
    e <> CRYPT_E_NOT_FOUND ->
    (CertGetEnhancedKeyUsage_size W cert CERT_FIND_EXT_ONLY_ENHKEY_USAGE_FLAG = Fail e \/
     (exists cb,
         CertGetEnhancedKeyUsage_size W cert CERT_FIND_EXT_ONLY_ENHKEY_USAGE_FLAG = Ok cb /\
         CertGetEnhancedKeyUsage W cert CERT_FIND_EXT_ONLY_ENHKEY_USAGE_FLAG cb = Fail e) \/
     CertGetEnhancedKeyUsage_size W cert CERT_FIND_PROP_ONLY_ENHKEY_USAGE_FLAG = Fail e \/
     (exists cb,
         CertGetEnhancedKeyUsage_size W cert CERT_FIND_PROP_ONLY_ENHKEY_USAGE_FLAG = Ok cb /\
         CertGetEnhancedKeyUsage W cert CERT_FIND_PROP_ONLY_ENHKEY_USAGE_FLAG cb = Fail e)) ->
    GetEnhancedKeyUsage W cert values = Throw AppxSignatureInvalid.
Proof.
  intros W cert values e Hne Hfail.
  assert (Hprop : (CertGetEnhancedKeyUsage_size W cert CERT_FIND_PROP_ONLY_ENHKEY_USAGE_FLAG
                   = Fail e \/
                   exists cb,
                     CertGetEnhancedKeyUsage_size W cert CERT_FIND_PROP_ONLY_ENHKEY_USAGE_FLAG
                     = Ok cb /\
                     CertGetEnhancedKeyUsage W cert CERT_FIND_PROP_ONLY_ENHKEY_USAGE_FLAG cb
                     = Fail e) ->
                  GetEnhancedKeyUsage W cert values = Throw AppxSignatureInvalid).
  { intros Hp. unfold GetEnhancedKeyUsage, rbind.
    destruct (queryUsage W cert CERT_FIND_EXT_ONLY_ENHKEY_USAGE_FLAG) as [[ecb eusage] | e1] eqn:Hext.
    - destruct Hp as [Hsize | (cb & Hsize & Hdata)].
      + now rewrite (queryUsage_size_error W cert _ e Hsize Hne).
      + now rewrite (queryUsage_data_error W cert _ cb e Hsize Hdata Hne).
    - now rewrite (queryUsage_throw W cert _ e1 Hext). }
  destruct Hfail as [Hsize | [(cb & Hsize & Hdata) | Hp]].
  - unfold GetEnhancedKeyUsage, rbind.
    now rewrite (queryUsage_size_error W cert _ e Hsize Hne).
  - unfold GetEnhancedKeyUsage, rbind.
    now rewrite (queryUsage_data_error W cert _ cb e Hsize Hdata Hne).
  - now apply Hprop.
Qed.

(** The extension lists the store identifier; the property cannot be
    read. *)
Lemma GetEnhancedKeyUsage_api_failure_witness :
  GetEnhancedKeyUsage (provider propertyError) (Some leafCert) []
  = Throw AppxSignatureInvalid.
Proof.
  apply (GetEnhancedKeyUsage_api_failure (provider propertyError) (Some leafCert) [] 5).
  - discriminate.
  - right; right; left. reflexivity.
Defined.

(** X9.  [DoesSignatureCertContainStoreEKU] answers TRUE only when the
    signer resolver returned a certificate context and a list the EKU API
    delivered for it, from the extension or the property, holds the store
    identifier. *)
Theorem DoesSignatureCertContainStoreEKU_sound :
  forall (H : AppxHeaders) (W : WinCrypt) (buffer : CRYPT_DATA_BLOB),
    DoesSignatureCertContainStoreEKU H W buffer = Return true ->
    exists cert flags cb usage,
      GetCertContext W buffer = Return cert /\
      (flags = CERT_FIND_EXT_ONLY_ENHKEY_USAGE_FLAG \/
       flags = CERT_FIND_PROP_ONLY_ENHKEY_USAGE_FLAG) /\
      CertGetEnhancedKeyUsage W cert flags cb = Ok usage /\
      In (OID_WindowsStore H) usage.
Proof.
  intros H W buffer. unfold DoesSignatureCertContainStoreEKU, rbind.
  destruct (GetCertContext W buffer) as [cert | e] eqn:Hcert; [| discriminate].
  destruct (GetEnhancedKeyUsage W cert []) as [[b oids] | e] eqn:Heku; [| discriminate].
  destruct b; [| discriminate].
  intros Heq. inversion Heq as [Hfound]. apply store_oid_found in Hfound.
  destruct (GetEnhancedKeyUsage_return W cert [] oids true Heku)
    as (added & Hout & _ & Hsrc).
  cbn [List.app] in Hout. subst oids.
  destruct Hsrc as [-> | (flags & cb & Hflags & Hdata)]; [contradiction |].
  exists cert, flags, cb, added. repeat split; assumption.
Qed.

Lemma DoesSignatureCertContainStoreEKU_sound_witness :
  exists cert flags cb usage,
    GetCertContext (provider propertyOnly) p7s = Return cert /\
    (flags = CERT_FIND_EXT_ONLY_ENHKEY_USAGE_FLAG \/
     flags = CERT_FIND_PROP_ONLY_ENHKEY_USAGE_FLAG) /\
    CertGetEnhancedKeyUsage (provider propertyOnly) cert flags cb = Ok usage /\
    In (OID_WindowsStore headers) usage.
Proof.
  apply (DoesSignatureCertContainStoreEKU_sound headers (provider propertyOnly) p7s).
  reflexivity.
Defined.

(** X10.  The store-origin check is true only when the EKU test is true
    and the chain built for the blob passes [IsMicrosoftTrustedChain]; the
    authenticode-origin check then returns as well, without throwing,
    with the answer of [IsAuthenticodeTrustedChain] on that same chain. *)
Theorem IsStoreOrigin_true :
  forall (H : AppxHeaders) (W : WinCrypt) (buffer : CRYPT_DATA_BLOB),
    IsStoreOrigin H W buffer = Return true ->
    exists chain,
      DoesSignatureCertContainStoreEKU H W buffer = Return true /\
      GetCertChainContext W buffer = Return chain /\
      IsMicrosoftTrustedChain W chain = true /\
      IsAuthenticodeOrigin W buffer = Return (IsAuthenticodeTrustedChain W chain).
Proof.
  intros H W buffer. unfold IsStoreOrigin, IsAuthenticodeOrigin, rbind.
  destruct (DoesSignatureCertContainStoreEKU H W buffer) as [[|] | e]; try discriminate.
  destruct (GetCertChainContext W buffer) as [chain | e]; [| discriminate].
  intros Heq. exists chain. repeat split. congruence.
Qed.

Lemma IsStoreOrigin_true_witness :
  exists chain,
    DoesSignatureCertContainStoreEKU headers (provider storeSigned) p7s = Return true /\
    GetCertChainContext (provider storeSigned) p7s = Return chain /\
    IsMicrosoftTrustedChain (provider storeSigned) chain = true /\
    IsAuthenticodeOrigin (provider storeSigned) p7s
    = Return (IsAuthenticodeTrustedChain (provider storeSigned) chain).
Proof.
  apply (IsStoreOrigin_true headers (provider storeSigned) p7s). reflexivity.
Defined.

(** ** Certificates *)

Lemma find_split {A} (f : A -> bool) (l : list A) (x : A) :
  find f l = Some x ->
  exists before after,
    l = (before ++ x :: after)%list /\ f x = true /\
    Forall (fun y => f y = false) before.
Proof.
  induction l as [| a l IH]; [discriminate |].
  cbn [find]. destruct (f a) eqn:Ha.
  - intros Heq. inversion Heq; subst. exists [], l. repeat split; [assumption | constructor].
  - intros Hfind. destruct (IH Hfind) as (before & after & -> & Hx & Hbefore).
    exists (a :: before), after. repeat split; [assumption | now constructor].
Qed.

(** X11.  [IsCACert] answers TRUE only for a certificate whose first
    basic-constraints extension (2.5.29.19) decodes and says CA; a
    certificate without that extension, or whose first such extension does
    not decode, is not a CA for the code, whatever a later extension
    says. *)
Theorem IsCACert_first_extension :
  forall (W : WinCrypt) (c : CERT_CONTEXT),
    (IsCACert W c = true ->
     exists before ext after basicConstraints,
       rgExtension (pCertInfo c) = (before ++ ext :: after)%list /\
       Forall (fun e => pszObjId e <> szOID_BASIC_CONSTRAINTS2) before /\
       pszObjId ext = szOID_BASIC_CONSTRAINTS2 /\
       CryptDecodeObjectEx W X509_ASN_ENCODING X509_BASIC_CONSTRAINTS2 (Value ext)
         CRYPT_DECODE_ALLOC_FLAG = Some basicConstraints /\
       fCA basicConstraints = true) /\
    (Forall (fun e => pszObjId e <> szOID_BASIC_CONSTRAINTS2) (rgExtension (pCertInfo c)) ->
     IsCACert W c = false) /\
    (forall before ext after,
        rgExtension (pCertInfo c) = (before ++ ext :: after)%list ->
        Forall (fun e => pszObjId e <> szOID_BASIC_CONSTRAINTS2) before ->
        pszObjId ext = szOID_BASIC_CONSTRAINTS2 ->
        CryptDecodeObjectEx W X509_ASN_ENCODING X509_BASIC_CONSTRAINTS2 (Value ext)
          CRYPT_DECODE_ALLOC_FLAG = None ->
        IsCACert W c = false).
Proof.
  intros W c. split; [| split].
  - unfold IsCACert, CertFindExtension.
    destruct (find _ (rgExtension (pCertInfo c))) as [ext |] eqn:Hfind; [| discriminate].
    destruct (CryptDecodeObjectEx W _ _ (Value ext) _) as [bc |] eqn:Hdec; [| discriminate].
    destruct (fCA bc) eqn:Hca; [| discriminate].
    intros _. destruct (find_split _ _ _ Hfind) as (before & after & Hl & Hext & Hbefore).
    exists before, ext, after, bc. repeat split; try assumption.
    + eapply Forall_impl; [| exact Hbefore].
      intros e He. cbn beta in He. now apply String.eqb_neq.
    + now apply String.eqb_eq.
  - intros Hnone. unfold IsCACert, CertFindExtension.
    rewrite find_all_false; [reflexivity |].
    intros e Hin. rewrite Forall_forall in Hnone. apply String.eqb_neq. now apply Hnone.
  - intros before ext after Hl Hbefore Hext Hdec.
    unfold IsCACert, CertFindExtension. rewrite Hl.
    assert (Hfind : find (fun e => String.eqb (pszObjId e) szOID_BASIC_CONSTRAINTS2)
                      (before ++ ext :: after) = Some ext).
    { clear Hl. induction Hbefore as [| e before He _ IH].
      - cbn [List.app find]. apply String.eqb_eq in Hext. now rewrite Hext.
      - cbn [List.app find]. apply String.eqb_neq in He. now rewrite He. }
    rewrite Hfind, Hdec. reflexivity.
Qed.

Lemma IsCACert_first_extension_witness :
  (exists before ext after basicConstraints,
      rgExtension (pCertInfo caCert) = (before ++ ext :: after)%list /\
      Forall (fun e => pszObjId e <> szOID_BASIC_CONSTRAINTS2) before /\
      pszObjId ext = szOID_BASIC_CONSTRAINTS2 /\
      CryptDecodeObjectEx (provider storeSigned) X509_ASN_ENCODING X509_BASIC_CONSTRAINTS2
        (Value ext) CRYPT_DECODE_ALLOC_FLAG = Some basicConstraints /\
      fCA basicConstraints = true) /\
  IsCACert (provider storeSigned) leafCert = false.
Proof.
  split.
  - apply (IsCACert_first_extension (provider storeSigned) caCert). reflexivity.
  - apply (IsCACert_first_extension (provider storeSigned) leafCert). constructor.
Defined.

(** X12.  With [dwFlags] 0, [IsCertificateSelfSigned] answers TRUE
    exactly for a certificate whose issuer name equals its subject name
    and whose signature verifies under its own key; with any other
    [dwFlags], or a NULL context, it answers FALSE.  Hence no such
    certificate is ever what [GetCertContext] returns from a PKCS#7
    bundle. *)
Theorem IsCertificateSelfSigned_iff :
  forall (W : WinCrypt) (c : CERT_CONTEXT) (dwEncoding : DWORD),
    (IsCertificateSelfSigned W (Some c) dwEncoding 0 = true <->
     Issuer (pCertInfo c) = Subject (pCertInfo c) /\ self_signature_verifies W c) /\
    (forall dwFlags, dwFlags <> 0 ->
                     IsCertificateSelfSigned W (Some c) dwEncoding dwFlags = false) /\
    (forall dwFlags, IsCertificateSelfSigned W None dwEncoding dwFlags = false) /\
    (forall buffer q,
        CryptQueryObject W CERT_QUERY_OBJECT_BLOB buffer
          (Z.lor (Z.lor CERT_QUERY_CONTENT_FLAG_CERT CERT_QUERY_CONTENT_FLAG_PKCS7_SIGNED)
                 CERT_QUERY_CONTENT_FLAG_PKCS7_UNSIGNED)
          CERT_QUERY_FORMAT_FLAG_ALL = Some q ->
        dwContentType q <> CERT_QUERY_CONTENT_CERT ->
        GetCertContext W buffer = Return (Some c) ->
        ~ (Issuer (pCertInfo c) = Subject (pCertInfo c) /\ self_signature_verifies W c)).
Proof.
  intros W c dwEncoding.
  assert (Hiff : forall enc,
             IsCertificateSelfSigned W (Some c) enc 0 = true <->
             Issuer (pCertInfo c) = Subject (pCertInfo c) /\ self_signature_verifies W c).
  { intros enc. split.
    - intros Htrue. apply IsCertificateSelfSigned_true in Htrue.
      destruct Htrue as (c' & Hc & _ & Hname & Hver). inversion Hc; subst c'. now split.
    - intros [Hname (dwFlag & Hverify & Hbit)].
      unfold IsCertificateSelfSigned, CertCompareCertificateName.
      cbn [Z.eqb negb]. apply blob_eqb_eq in Hname. rewrite Hname. cbn [negb].
      rewrite Hverify. cbn [negb orb]. now rewrite Hbit. }
  split; [apply Hiff | split; [| split]].
  - intros dwFlags Hne. unfold IsCertificateSelfSigned.
    apply Z.eqb_neq in Hne. now rewrite Hne.
  - reflexivity.
  - intros buffer q Hq Htype Hget Hself.
    unfold GetCertContext in Hget. rewrite Hq in Hget.
    apply Z.eqb_neq in Htype. rewrite Htype in Hget.
    inversion Hget as [Henum].
    pose proof (enumEndEntity_spec W (hCertStore q)) as Hspec.
    rewrite Henum in Hspec. destruct Hspec as (_ & _ & _ & _ & Hc).
    unfold passed_over in Hc. apply orb_false_iff in Hc. destruct Hc as [Hc _].
    apply (Hiff (dwCertEncodingType c)) in Hself. congruence.
Qed.

Lemma rootCert_verifies : self_signature_verifies (provider storeSigned) rootCert.
Proof. exists 0. split; reflexivity. Qed.

Lemma IsCertificateSelfSigned_iff_witness :
  IsCertificateSelfSigned (provider storeSigned) (Some rootCert) 1 0 = true /\
  IsCertificateSelfSigned (provider storeSigned) (Some rootCert) 1 1 = false /\
  ~ (Issuer (pCertInfo leafCert) = Subject (pCertInfo leafCert) /\
     self_signature_verifies (provider storeSigned) leafCert).
Proof.
  destruct (IsCertificateSelfSigned_iff (provider storeSigned) rootCert 1)
    as (Hiff & Hflags & _ & _).
  destruct (IsCertificateSelfSigned_iff (provider storeSigned) leafCert 1)
    as (_ & _ & _ & Hnever).
  split; [| split].
  - apply Hiff. split; [reflexivity | exact rootCert_verifies].
  - apply Hflags. discriminate.
  - apply (Hnever p7s
             (mkQuery CERT_QUERY_CONTENT_PKCS7_SIGNED [rootCert; caCert; leafCert] 1)).
    + reflexivity.
    + discriminate.
    + reflexivity.
Defined.

(** X13.  When the signer resolver finds no end-entity certificate and
    returns NULL, the NULL goes to the EKU API as it is; if the API
    refuses it with a code other than CRYPT_E_NOT_FOUND, the store-origin
    check throws AppxSignatureInvalid and so does the origin condition of
    [Validate], whatever the option. *)
Theorem IsStoreOrigin_null_signer :
  forall (H : AppxHeaders) (W : WinCrypt) (buffer : CRYPT_DATA_BLOB) (e : DWORD),
    GetCertContext W buffer = Return None ->
    CertGetEnhancedKeyUsage_size W None CERT_FIND_EXT_ONLY_ENHKEY_USAGE_FLAG = Fail e ->
    e <> CRYPT_E_NOT_FOUND ->
    DoesSignatureCertContainStoreEKU H W buffer = Throw AppxSignatureInvalid /\
    IsStoreOrigin H W buffer = Throw AppxSignatureInvalid /\
    forall option, OriginCondition H W option buffer = Throw AppxSignatureInvalid.
Proof.
  intros H W buffer e Hnull Hsize Hne.
  assert (Heku : DoesSignatureCertContainStoreEKU H W buffer = Throw AppxSignatureInvalid).
  { unfold DoesSignatureCertContainStoreEKU, rbind. rewrite Hnull.
    unfold GetEnhancedKeyUsage, rbind.
    now rewrite (queryUsage_size_error W None _ e Hsize Hne). }
  assert (Hso : IsStoreOrigin H W buffer = Throw AppxSignatureInvalid).
  { unfold IsStoreOrigin, rbind. now rewrite Heku. }
  repeat split; try assumption.
  intros option. unfold OriginCondition, rbind. now rewrite Hso.
Qed.

(** A bundle of authorities only; AllowUnknownOrigin does not help. *)
Lemma IsStoreOrigin_null_signer_witness :
  DoesSignatureCertContainStoreEKU headers (provider authoritiesOnly) p7s
  = Throw AppxSignatureInvalid /\
  IsStoreOrigin headers (provider authoritiesOnly) p7s = Throw AppxSignatureInvalid /\
  forall option,
    OriginCondition headers (provider authoritiesOnly) option p7s
    = Throw AppxSignatureInvalid.
Proof.
  apply (IsStoreOrigin_null_signer headers (provider authoritiesOnly) p7s
           ERROR_INVALID_PARAMETER).
  - reflexivity.
  - reflexivity.
  - discriminate.
Defined.

(** X14.  A certificate context [GetCertContext] returns is one of the
    certificates the blob carries; for a blob that is a bare certificate
    it is the first of the store, taken without the CA and self-signed
    tests; and [GetCertContext] throws exactly when the blob cannot be
    parsed. *)
Theorem GetCertContext_from_store :
  forall (W : WinCrypt) (buffer : CRYPT_DATA_BLOB),
    (forall c,
        GetCertContext W buffer = Return (Some c) ->
        exists q,
          CryptQueryObject W CERT_QUERY_OBJECT_BLOB buffer
            (Z.lor (Z.lor CERT_QUERY_CONTENT_FLAG_CERT CERT_QUERY_CONTENT_FLAG_PKCS7_SIGNED)
                   CERT_QUERY_CONTENT_FLAG_PKCS7_UNSIGNED)
            CERT_QUERY_FORMAT_FLAG_ALL = Some q /\
          In c (hCertStore q)) /\
    (forall q,
        CryptQueryObject W CERT_QUERY_OBJECT_BLOB buffer
          (Z.lor (Z.lor CERT_QUERY_CONTENT_FLAG_CERT CERT_QUERY_CONTENT_FLAG_PKCS7_SIGNED)
                 CERT_QUERY_CONTENT_FLAG_PKCS7_UNSIGNED)
          CERT_QUERY_FORMAT_FLAG_ALL = Some q ->
        dwContentType q = CERT_QUERY_CONTENT_CERT ->
        GetCertContext W buffer = Return (hd_error (hCertStore q))) /\
    ((exists e, GetCertContext W buffer = Throw e) <->
     CryptQueryObject W CERT_QUERY_OBJECT_BLOB buffer
       (Z.lor (Z.lor CERT_QUERY_CONTENT_FLAG_CERT CERT_QUERY_CONTENT_FLAG_PKCS7_SIGNED)
              CERT_QUERY_CONTENT_FLAG_PKCS7_UNSIGNED)
       CERT_QUERY_FORMAT_FLAG_ALL = None).
Proof.
  intros W buffer. split; [| split].
  - intros c. unfold GetCertContext.
    destruct (CryptQueryObject W _ buffer _ _) as [q |]; [| discriminate].
    intros Hget. exists q. split; [reflexivity |].
    destruct (dwContentType q =? CERT_QUERY_CONTENT_CERT).
    + inversion Hget as [Hhd]. unfold CertEnumCertificatesInStore_first in Hhd.
      destruct (hCertStore q) as [| c0 rest]; [discriminate |].
      inversion Hhd; subst. now left.
    + inversion Hget as [Henum].
      pose proof (enumEndEntity_spec W (hCertStore q)) as Hspec.
      rewrite Henum in Hspec. destruct Hspec as (before & after & -> & _ & _).
      apply in_or_app. right. now left.
  - intros q Hq Htype. unfold GetCertContext. rewrite Hq, Htype. reflexivity.
  - unfold GetCertContext.
    destruct (CryptQueryObject W _ buffer _ _) as [q |].
    + split; [| discriminate].
      intros [e He]. destruct (dwContentType q =? CERT_QUERY_CONTENT_CERT); discriminate.
    + split; [reflexivity |]. intros _. now exists AppxSignatureInvalid.
Qed.

(** A bare root certificate is returned as the signer. *)
Lemma GetCertContext_from_store_witness :
  GetCertContext (provider bareCertificate) p7s = Return (Some rootCert) /\
  exists q,
    CryptQueryObject (provider storeSigned) CERT_QUERY_OBJECT_BLOB p7s
      (Z.lor (Z.lor CERT_QUERY_CONTENT_FLAG_CERT CERT_QUERY_CONTENT_FLAG_PKCS7_SIGNED)
             CERT_QUERY_CONTENT_FLAG_PKCS7_UNSIGNED)
      CERT_QUERY_FORMAT_FLAG_ALL = Some q /\
    In leafCert (hCertStore q).
Proof.
  split.
  - apply (GetCertContext_from_store (provider bareCertificate) p7s)
      with (q := mkQuery CERT_QUERY_CONTENT_CERT [rootCert] 1); reflexivity.
  - destruct (GetCertContext_from_store (provider storeSigned) p7s) as (Hin & _ & _).
    apply (Hin leafCert). reflexivity.
Defined.

(** X15.  [GetCertChainContext] returns a chain exactly when the blob
    parses as a signed message, the signer info is read with a size that
    is neither 0 nor at or above STRSAFE_MAX_CCH, the certificate it names
    is in the store, and the chain engine of the local machine, asked with
    cache-only URL retrieval, builds a chain for it; the chain returned is
    that one. *)
Theorem GetCertChainContext_returns_iff :
  forall (W : WinCrypt) (buffer : CRYPT_DATA_BLOB) (chain : CERT_CHAIN_CONTEXT),
    GetCertChainContext W buffer = Return chain <->
    exists q signerInfo cert,
      signer_resolved W buffer q signerInfo cert /\
      CertGetCertificateChain W HCCE_LOCAL_MACHINE cert (hCertStore q)
        (mkChainPara USAGE_MATCH_TYPE_AND) CERT_CHAIN_CACHE_ONLY_URL_RETRIEVAL
      = Some chain.
Proof.
  intros W buffer chain. split.
  - unfold GetCertChainContext.
    destruct (CryptQueryObject W _ buffer _ _) as [q |] eqn:Hq; [| discriminate].
    destruct (CryptMsgGetParam_size W (hMsg q) CMSG_SIGNER_INFO_PARAM 0)
      as [size |] eqn:Hsize; [| discriminate].
    destruct ((size =? 0) || (size >=? STRSAFE_MAX_CCH)) eqn:Hguard; [discriminate |].
    destruct (CryptMsgGetParam W (hMsg q) CMSG_SIGNER_INFO_PARAM 0 size)
      as [signerInfo |] eqn:Hinfo; [| discriminate].
    destruct (CertGetSubjectCertificateFromStore (hCertStore q) _ _ _)
      as [cert |] eqn:Hcert; [| discriminate].
    destruct (CertGetCertificateChain W HCCE_LOCAL_MACHINE cert _ _ _)
      as [chain' |] eqn:Hchain; [| discriminate].
    intros Heq. inversion Heq; subst chain'.
    apply orb_false_iff in Hguard. destruct Hguard as [Hzero Hmax].
    apply Z.eqb_neq in Hzero.
    assert (Hlt : size < STRSAFE_MAX_CCH)
      by (destruct (Z.geb_spec size STRSAFE_MAX_CCH); [discriminate | assumption]).
    exists q, signerInfo, cert. split; [| assumption].
    split; [exact Hq | split; [| assumption]].
    exists size. repeat split; assumption.
  - intros (q & signerInfo & cert &
            (Hq & (size & Hsize & Hnz & Hlt & Hinfo) & Hcert) & Hchain).
    unfold GetCertChainContext. rewrite Hq, Hsize.
    assert (Hguard : (size =? 0) || (size >=? STRSAFE_MAX_CCH) = false).
    { apply orb_false_iff. split.
      - now apply Z.eqb_neq.
      - destruct (Z.geb_spec size STRSAFE_MAX_CCH); [lia | reflexivity]. }
    now rewrite Hguard, Hinfo, Hcert, Hchain.
Qed.

(** X16.  An acceptance does not depend on the option beyond the
    AllowUnknownOrigin bit: a call that returned true returns true, and
    leaves the same state, under every other option that does not skip
    validation and has the AllowUnknownOrigin bit whenever the first
    option had it.  In particular setting AllowUnknownOrigin never turns
    an accepted signature into a rejected one. *)
Theorem Validate_allow_monotone :
  forall (H : AppxHeaders) (W : WinCrypt) (S Digests : Type) (stream : IStream S)
         (option option' : Z) (st : VState S Digests),
    fst (Validate H W stream option st) = Return true ->
    Z.land option' (APPX_VALIDATION_OPTION_SKIPSIGNATURE H) = 0 ->
    (Z.land option (APPX_VALIDATION_OPTION_ALLOWUNKNOWNORIGIN H) <> 0 ->
     Z.land option' (APPX_VALIDATION_OPTION_ALLOWUNKNOWNORIGIN H) <> 0) ->
    Validate H W stream option' st = Validate H W stream option st.
Proof.
  intros H W S Digests stream option option' st Hacc Hskip' Hallow.
  destruct (Z.eq_dec (Z.land option (APPX_VALIDATION_OPTION_SKIPSIGNATURE H)) 0) as [E | E];
    [| rewrite Validate_skip in Hacc by assumption; discriminate].
  rewrite Validate_noskip in Hacc by assumption.
  rewrite !Validate_noskip by assumption.
  destruct (ReadP7x H stream st) as [[buffer | e] st']; [| reflexivity].
  unfold OriginCondition, rbind in *.
  destruct (IsStoreOrigin H W buffer) as [[|] | e]; try reflexivity.
  destruct (IsAuthenticodeOrigin W buffer) as [[|] | e]; try reflexivity.
  destruct (Z.eqb_spec (Z.land option (APPX_VALIDATION_OPTION_ALLOWUNKNOWNORIGIN H)) 0)
    as [Hz | Hnz]; [discriminate Hacc |].
  apply Hallow in Hnz. apply Z.eqb_neq in Hnz. rewrite Hnz. reflexivity.
Qed.

(** The store-signed bundle, accepted with no option, with
    AllowUnknownOrigin added. *)
Lemma Validate_allow_monotone_witness :
  Validate headers (provider storeSigned) scriptStream
    (APPX_VALIDATION_OPTION_ALLOWUNKNOWNORIGIN headers) (p7xScript, tt)
  = Validate headers (provider storeSigned) scriptStream 0 (p7xScript, tt).
Proof.
  apply (Validate_allow_monotone headers (provider storeSigned) Script unit scriptStream
           0 (APPX_VALIDATION_OPTION_ALLOWUNKNOWNORIGIN headers) (p7xScript, tt)).
  - reflexivity.
  - reflexivity.
  - intros Hnz. exfalso. apply Hnz. reflexivity.
Defined.
